(** * SafeLease damage-verifier multi-agent demo: a shallow embedding

    The development follows the five Python modules of
    [damageVerifierMultiAgent]:

    - [damage_verifier.py]: the handler [verify_damage];
    - [payment_processor.py]: the handler [process_payment];
    - [client.py]: the handlers [handle_damage_response] and
      [handle_payment_response], and the interval task
      [initiate_deposit_refund];
    - [run_system.py]: [check_env_vars], [run_agent] and [main].

    Python [str] values are [string]s, Python [float]s are IEEE-754 binary64
    values in the executable specification of the standard library
    ([spec_float] at precision 53 and maximal exponent 1024), the process
    environment is a finite map from names to values.  A message handler is
    the function from its inputs to the one [ctx.send] it performs; logging
    calls ([ctx.logger.info]) do not influence any value and are left out.
    The random draw of [process_payment] is made on a generator that is
    passed in explicitly, with its state.
    The [print] calls of [run_system.py] are kept as events, and the lines
    printed by [handle_payment_response] as the record of the four values
    they show. *)

From Stdlib Require Import ZArith Lia Bool List String Ascii.
From Stdlib Require Import Floats.SpecFloat.
From stdpp Require Import base strings gmap.
Import ListNotations.

Local Open Scope Z_scope.
Local Open Scope string_scope.

(** ** Python floats *)

Module Float64.

Definition prec : Z := 53.
Definition emax : Z := 1024.

Definition float := spec_float.

(** The values a Python float can hold: canonical binary64 numbers. *)
Definition is_float (x : float) : bool := valid_binary prec emax x.

Definition mul : float -> float -> float := SFmul prec emax.
Definition add : float -> float -> float := SFadd prec emax.
Definition sub : float -> float -> float := SFsub prec emax.
Definition div : float -> float -> float := SFdiv prec emax.

(** Python's [==] and [<=] on floats. *)
Definition eqb : float -> float -> bool := SFeqb.
Definition leb : float -> float -> bool := SFleb.

(** [float(n)] for an integer [n]. *)
Definition of_Z (n : Z) : float := binary_normalize prec emax n 0 false.

(** The integer literal [0] stored in a [float] field. *)
Definition zero : float := S754_zero false.

(** The literal [0.2]: the binary64 number nearest to one fifth,
    [0x3FC999999999999A]. *)
Definition lit_0_2 : float := S754_finite false 7205759403792794 (-55).

(** The literal [1000.0]. *)
Definition lit_1000 : float := S754_finite false 8796093022208000 (-43).

Definition is_nan (x : float) : bool :=
  match x with S754_nan => true | _ => false end.

Definition is_finite (x : float) : bool :=
  match x with S754_zero _ | S754_finite _ _ _ => true | _ => false end.

(** The value of a finite float as a multiple of [2^-1074], the smallest
    positive binary64 number. *)
Definition scaled (x : float) : Z :=
  match x with
  | S754_finite s m e => cond_Zopp s (Zpos m * 2 ^ (e + 1074))
  | _ => 0
  end.

(** The unit in the last place of a finite float, as a multiple of
    [2^-1074]. *)
Definition ulp_scaled (x : float) : Z :=
  match x with
  | S754_finite _ _ e => 2 ^ (e + 1074)
  | _ => 1
  end.

End Float64.

Abbreviation float := Float64.float.

(** ** Message models ([uagents.Model] subclasses) *)

Module DamageRequest.
Record t : Type := mk
  { before_image : string;
    after_image : string;
    claim_amount : float;
    policy_id : string }.
End DamageRequest.

Module DamageResponse.
Record t : Type := mk
  { decision : string;
    approved_amount : float;
    deduction : float;
    policy_id : string }.
End DamageResponse.

Module PaymentRequest.
Record t : Type := mk
  { decision : string;
    approved_amount : float;
    policy_id : string }.
End PaymentRequest.

Module PaymentResponse.
Record t : Type := mk
  { policy_id : string;
    decision : string;
    paid_amount : float;
    transaction_id : string;
    status : string }.
End PaymentResponse.

(** ** Python built-ins used by the scripts *)

Module Python.

Definition digit_char (d : Z) : ascii := ascii_of_nat (Z.to_nat (48 + d)).

(** Decimal digits of a non-negative integer, most significant first,
    accumulated in front of [acc]. *)
Fixpoint str_digits (fuel : nat) (n : Z) (acc : string) : string :=
  match fuel with
  | O => acc
  | S fuel' =>
      let acc' := String (digit_char (n mod 10)) acc in
      if Z.eqb (n / 10) 0 then acc' else str_digits fuel' (n / 10) acc'
  end.

(** [str(n)], which is also how an f-string formats an [int]. *)
Definition str_int (n : Z) : string :=
  if Z.ltb n 0
  then String "-" (str_digits (S (Z.to_nat (Z.log2 (- n)))) (- n) "")
  else str_digits (S (Z.to_nat (Z.log2 n))) n "".

(** [s * n] for a string [s]. *)
Fixpoint str_repeat (s : string) (n : nat) : string :=
  match n with
  | O => ""
  | S n' => s ++ str_repeat s n'
  end.

(** [sep.join(l)]. *)
Definition join (sep : string) (l : list string) : string := String.concat sep l.

(** [random.randint(a, b)] returns an integer [r] with [a <= r <= b]. *)
Definition randint_returns (a b r : Z) : Prop := a <= r <= b.

(** [random.randint] on a generator whose states are of type [G]: from the
    two arguments and the state, the integer returned and the next state. *)
Definition Randint (G : Type) : Type := Z -> Z -> G -> Z * G.

(** The contract of [random.randint(a, b)]: for [a <= b] it returns an
    integer [N] with [a <= N <= b], both end points included. *)
Definition randint_contract {G : Type} (randint : Randint G) : Prop :=
  forall a b g, a <= b -> a <= fst (randint a b g) <= b.

(** A generator that meets the contract: a linear congruential generator
    whose state is reduced to the range asked for. *)
Definition lcg_randint : Randint Z :=
  fun a b g => (a + g mod (b - a + 1), (1103515245 * g + 12345) mod 2147483648).

(** [os.environ] once [load_dotenv()] has run. *)
Definition Environ : Type := gmap string string.

(** [os.getenv(var)]. *)
Definition getenv (environ : Environ) (var : string) : option string :=
  environ !! var.

(** Truth value of an [os.getenv] result: [None] and [""] are false. *)
Definition truthy (v : option string) : bool :=
  match v with
  | None => false
  | Some s => negb (String.eqb s "")
  end.

End Python.

(** ** Agents and addresses *)

Record Agent : Type := mkAgent
  { name : string;
    seed : string;
    port : Z;
    endpoint : list string }.

(** The framework derives an agent's address from its seed alone. *)
Inductive Address : Type :=
  | AddressOfSeed (s : string).

Definition address (a : Agent) : Address := AddressOfSeed (seed a).

(** ** damage_verifier.py *)

Module damage_verifier.

(** The module-level [Agent(...)] call, run in environment [environ]. *)
Definition damage_agent (environ : Python.Environ) : Agent :=
  mkAgent "DamageVerifier" "damage_verifier_seed_12345_unique" 8000
          ["http://localhost:8000/submit"].

(** [verify_damage] ends in one [ctx.send(sender, response)]; the result is
    that destination and that response. *)
Definition verify_damage (sender : Address) (msg : DamageRequest.t)
  : Address * DamageResponse.t :=
  let '(decision, approved_amount, deduction) :=
    if String.eqb (DamageRequest.before_image msg) (DamageRequest.after_image msg)
    then ("full_payout", DamageRequest.claim_amount msg, Float64.zero)
    else
      let deduction := Float64.mul (DamageRequest.claim_amount msg) Float64.lit_0_2 in
      let approved_amount := Float64.sub (DamageRequest.claim_amount msg) deduction in
      ("deduct_payout", approved_amount, deduction) in
  let response :=
    DamageResponse.mk decision approved_amount deduction (DamageRequest.policy_id msg) in
  (sender, response).

End damage_verifier.

(** ** payment_processor.py *)

Module payment_processor.

Definition payment_agent (environ : Python.Environ) : Agent :=
  mkAgent "PaymentProcessor" "payment_processor_seed_67890_unique" 8001
          ["http://localhost:8001/submit"].

(** [r] is the value [random.randint(100000, 999999)] returned in this
    call. *)
Definition process_payment (r : Z) (sender : Address) (msg : PaymentRequest.t)
  : Address * PaymentResponse.t :=
  let txn_id := "TXN_" ++ Python.str_int r in
  let '(paid_amount, status) :=
    if String.eqb (PaymentRequest.decision msg) "full_payout"
    then (PaymentRequest.approved_amount msg, "completed")
    else if String.eqb (PaymentRequest.decision msg) "deduct_payout"
    then (PaymentRequest.approved_amount msg, "completed")
    else if String.eqb (PaymentRequest.decision msg) "error"
    then (Float64.zero, "failed")
    else (Float64.zero, "rejected") in
  let response :=
    PaymentResponse.mk (PaymentRequest.policy_id msg) (PaymentRequest.decision msg)
                       paid_amount txn_id status in
  (sender, response).

(** [process_payment] together with its call [random.randint(100000,
    999999)]: the handler draws from the generator in state [g] and goes on
    with the number drawn; the generator is left in its next state. *)
Definition process_payment_drawing {G : Type} (randint : Python.Randint G) (g : G)
    (sender : Address) (msg : PaymentRequest.t)
  : (Address * PaymentResponse.t) * G :=
  let '(r, g') := randint 100000 999999 g in
  (process_payment r sender msg, g').

End payment_processor.

(** ** client.py *)

Module client.

Definition client_agent (environ : Python.Environ) : Agent :=
  mkAgent "TestClient" "client_seed_phrase_abcde_unique" 8003
          ["http://localhost:8003/submit"].

(** The client builds its own copies of the two service agents, with the
    same seeds, to learn their addresses. *)
Definition damage_agent (environ : Python.Environ) : Agent :=
  mkAgent "DamageVerifier" "damage_verifier_seed_12345_unique" 8000
          ["http://localhost:8000/submit"].

Definition payment_agent (environ : Python.Environ) : Agent :=
  mkAgent "PaymentProcessor" "payment_processor_seed_67890_unique" 8001
          ["http://localhost:8001/submit"].

(** The module's two global variables; both start as [None]. *)
Record Globals : Type := mkGlobals
  { damage_response : option DamageResponse.t;
    payment_response : option PaymentResponse.t }.

Definition initial_globals : Globals := mkGlobals None None.

(** The four values [handle_payment_response] prints. *)
Record Summary : Type := mkSummary
  { summary_policy_id : string;
    summary_status : string;
    summary_paid_amount : float;
    summary_transaction_id : string }.

Definition handle_damage_response (environ : Python.Environ) (g : Globals)
    (sender : Address) (msg : DamageResponse.t)
  : Globals * (Address * PaymentRequest.t) :=
  let g' := mkGlobals (Some msg) (payment_response g) in
  let payment_request :=
    PaymentRequest.mk (DamageResponse.decision msg)
                      (DamageResponse.approved_amount msg)
                      (DamageResponse.policy_id msg) in
  (g', (address (payment_agent environ), payment_request)).

Definition handle_payment_response (g : Globals) (sender : Address)
    (msg : PaymentResponse.t) : Globals * Summary :=
  let g' := mkGlobals (damage_response g) (Some msg) in
  (g', mkSummary (PaymentResponse.policy_id msg) (PaymentResponse.status msg)
                 (PaymentResponse.paid_amount msg)
                 (PaymentResponse.transaction_id msg)).

(** The request built on every tick of the 10-second interval. *)
Definition demo_request : DamageRequest.t :=
  DamageRequest.mk "https://example.com/before.jpg"
                   "https://example.com/after.jpg"
                   Float64.lit_1000
                   "POL-12345".

Definition initiate_deposit_refund (environ : Python.Environ) (g : Globals)
  : Globals * (Address * DamageRequest.t) :=
  (g, (address (damage_agent environ), demo_request)).

End client.

(** ** run_system.py *)

Module run_system.

(** What the supervision script does to the outside world. *)
Inductive Event : Type :=
  | Print (line : string)
  | Popen (script_name : string)
  | Sleep (seconds : Z).

(** [main] either leaves through [sys.exit] or reaches its [while True]
    monitoring loop with the processes it started. *)
Inductive Outcome : Type :=
  | SysExit (code : Z)
  | Monitoring (processes : list (string * Z)).

Definition check_env_vars (environ : Python.Environ) : list Event * bool :=
  let required_vars := ["AGENT_SEED"] in
  let missing_vars :=
    List.filter (fun var => negb (Python.truthy (Python.getenv environ var)))
           required_vars in
  match missing_vars with
  | _ :: _ =>
      ([Print ("❌ Missing environment variables: " ++ Python.join ", " missing_vars);
        Print "Please set them in your .env file"], false)
  | [] => ([Print "✅ Environment variables are set"], true)
  end.

(** [spawn script_name] is what [subprocess.Popen] does for that script:
    the PID of the new process, or the text of the exception raised. *)
Definition run_agent (spawn : string -> Z + string)
    (script_name agent_name : string) : list Event * option Z :=
  let starting := [Print ("🚀 Starting " ++ agent_name ++ "..."); Popen script_name] in
  match spawn script_name with
  | inl pid =>
      ((starting ++
        [Print ("✅ " ++ agent_name ++ " started with PID " ++ Python.str_int pid)])%list,
       Some pid)
  | inr e =>
      ((starting ++ [Print ("❌ Failed to start " ++ agent_name ++ ": " ++ e)])%list,
       None)
  end.

Definition append_started (agent_name : string) (process : option Z)
    (processes : list (string * Z)) : list (string * Z) :=
  match process with
  | Some pid => (processes ++ [(agent_name, pid)])%list
  | None => processes
  end.

(** [main] up to its monitoring loop.  The loop itself and the shutdown on
    [KeyboardInterrupt] are not part of the model. *)
Definition main (environ : Python.Environ) (spawn : string -> Z + string)
  : list Event * Outcome :=
  let banner :=
    [Print "🏠 Working Security Deposit Refund System";
     Print (Python.str_repeat "=" 45)] in
  let '(checked, ok) := check_env_vars environ in
  if negb ok then ((banner ++ checked)%list, SysExit 1)
  else
    let processes := [] in
    let '(ev1, damage_process) := run_agent spawn "damage_verifier.py" "DamageVerifier" in
    let processes := append_started "DamageVerifier" damage_process processes in
    let '(ev2, payment_process) := run_agent spawn "payment_processor.py" "PaymentProcessor" in
    let processes := append_started "PaymentProcessor" payment_process processes in
    let listing :=
      ([Print (String "010" "🎯 All agents are running!");
        Print "📋 Available agents:"]
       ++ map (fun '(name, _) => Print ("  - " ++ name)) processes
       ++ [Print (String "010" "💡 To test the system:");
           Print "   python client.py";
           Print (String "010" "⏹️  Press Ctrl+C to stop all agents")])%list in
    ((banner ++ checked ++ ev1 ++ [Sleep 2] ++ ev2 ++ [Sleep 2] ++ listing)%list,
     Monitoring processes).

End run_system.

(** ** The workflow the specification describes for the orchestrator *)

Module workflow.

Inductive State : Type := Idle | AwaitingDamage | AwaitingPayment | Done.

(** What can happen at the client: a tick of the interval, or the arrival
    of one of the two responses. *)
Inductive ClientEvent : Type :=
  | Tick
  | GotDamageResponse (sender : Address) (msg : DamageResponse.t)
  | GotPaymentResponse (sender : Address) (msg : PaymentResponse.t).

(** The state machine in the words of the specification: a tick starts a
    workflow only from [Idle], a damage response is taken while
    [AwaitingDamage], a payment response while [AwaitingPayment]. *)
Definition spec_step (s : State) (ev : ClientEvent) : State :=
  match s, ev with
  | Idle, Tick => AwaitingDamage
  | AwaitingDamage, GotDamageResponse _ _ => AwaitingPayment
  | AwaitingPayment, GotPaymentResponse _ _ => Done
  | _, _ => s
  end.

Definition spec_state (history : list ClientEvent) : State :=
  fold_left spec_step history Idle.

(** What the client sends in reaction to an event. *)
Inductive Sent : Type :=
  | SentDamageRequest (dest : Address) (msg : DamageRequest.t)
  | SentPaymentRequest (dest : Address) (msg : PaymentRequest.t).

(** The client of [client.py] reacting to one event. *)
Definition client_step (environ : Python.Environ) (g : client.Globals)
    (ev : ClientEvent) : client.Globals * list Sent :=
  match ev with
  | Tick =>
      let '(g', (dest, msg)) := client.initiate_deposit_refund environ g in
      (g', [SentDamageRequest dest msg])
  | GotDamageResponse sender msg =>
      let '(g', (dest, req)) := client.handle_damage_response environ g sender msg in
      (g', [SentPaymentRequest dest req])
  | GotPaymentResponse sender msg =>
      (fst (client.handle_payment_response g sender msg), [])
  end.

Definition client_run (environ : Python.Environ) (history : list ClientEvent)
  : client.Globals :=
  fold_left (fun g ev => fst (client_step environ g ev)) history client.initial_globals.

Definition sends_damage_request (out : list Sent) : bool :=
  existsb (fun m => match m with SentDamageRequest _ _ => true | _ => false end) out.

End workflow.

(** ** Vocabulary of the properties *)

Module numeral.

Definition is_decimal_digit (c : ascii) : bool :=
  Z.leb 48 (Z.of_N (N_of_ascii c)) && Z.leb (Z.of_N (N_of_ascii c)) 57.

Fixpoint int_of_digits (s : string) (acc : Z) : option Z :=
  match s with
  | EmptyString => Some acc
  | String c s' =>
      if is_decimal_digit c
      then int_of_digits s' (10 * acc + (Z.of_N (N_of_ascii c) - 48))
      else None
  end.

(** The integer a non-empty string of decimal digits denotes. *)
Definition parse_decimal (s : string) : option Z :=
  match s with
  | EmptyString => None
  | _ => int_of_digits s 0
  end.

End numeral.

(** Vocabulary for the analysis of binary64 rounding. *)
Module rounding.

Definition b2z (b : bool) : Z := if b then 1 else 0.

(** After [k] one-bit right shifts of the integer [M]: the kept mantissa
    [shr_m], the round bit [shr_r] and the sticky bit [shr_s] locate [M]. *)
Definition shr_inv (M : Z) (k : Z) (mrs : shr_record) : Prop :=
  0 <= shr_m mrs
  /\ 0 <= 2 * (M - shr_m mrs * 2 ^ k) - b2z (shr_r mrs) * 2 ^ k < 2 ^ k
  /\ (shr_s mrs = false -> 2 * (M - shr_m mrs * 2 ^ k) = b2z (shr_r mrs) * 2 ^ k).

(** The integer [m * 2^(e + 1074)]: the number [m * 2^e] in units of
    [2^-1074]. *)
Definition V (m e : Z) : Z := m * 2 ^ (e + 1074).

(** The float built from a rounded mantissa [m3] and exponent [e3]. *)
Definition pack (s : bool) (m3 e3 : Z) : float :=
  match m3 with
  | Z0 => S754_zero s
  | Zpos m => if Z.leb e3 (Float64.emax - Float64.prec)
              then S754_finite s m e3 else S754_infinity s
  | Zneg _ => S754_nan
  end.

(** A float that is a zero, a finite number or an infinity of sign [s]. *)
Definition signed_or_zero (s : bool) (x : float) : Prop :=
  x = S754_zero s \/ (exists m e, x = S754_finite s m e) \/ x = S754_infinity s.

End rounding.

(** ** client.py over a whole history of events *)

Module client_history.

(** The last damage response among the events, if any. *)
Definition last_damage_response (history : list workflow.ClientEvent)
  : option DamageResponse.t :=
  fold_left (fun acc ev =>
               match ev with
               | workflow.GotDamageResponse _ msg => Some msg
               | _ => acc
               end) history None.

(** The last payment response among the events, if any. *)
Definition last_payment_response (history : list workflow.ClientEvent)
  : option PaymentResponse.t :=
  fold_left (fun acc ev =>
               match ev with
               | workflow.GotPaymentResponse _ msg => Some msg
               | _ => acc
               end) history None.

(** Everything the client sends while it handles the events in turn. *)
Fixpoint client_sent (environ : Python.Environ) (g : client.Globals)
    (history : list workflow.ClientEvent) : list workflow.Sent :=
  match history with
  | [] => []
  | ev :: rest =>
      let '(g', out) := workflow.client_step environ g ev in
      (out ++ client_sent environ g' rest)%list
  end.

End client_history.

(** ** run_system.py: the monitoring loop and the shutdown of [main] *)

Module supervision.

(** What [main] does to the processes it started. *)
Inductive Event : Type :=
  | Print (line : string)
  | Sleep (seconds : Z)
  | Poll (pid : Z)
  | Terminate (pid : Z)
  | Wait (pid : Z) (timeout : option Z)
  | Kill (pid : Z).

(** One turn of the [while True] loop.  [poll pid] is what [process.poll()]
    returns: [None] while the process runs, its exit code afterwards. *)
Definition monitor_iteration (poll : Z -> option Z)
    (processes : list (string * Z)) : list Event :=
  Sleep 1 ::
  flat_map (fun '(name, pid) =>
              Poll pid ::
              match poll pid with
              | Some _ => [Print ("⚠️  " ++ name ++ " has stopped unexpectedly")]
              | None => []
              end) processes.

(** The [except KeyboardInterrupt] clause.  [exits_in_time pid] tells
    whether [process.wait(timeout=5)] returns, rather than raising
    [subprocess.TimeoutExpired]. *)
Definition shutdown (exits_in_time : Z -> bool)
    (processes : list (string * Z)) : list Event :=
  (Print (String "010" "🛑 Shutting down agents...") ::
   flat_map (fun '(name, pid) =>
               [Print ("🛑 Stopping " ++ name ++ "...");
                Terminate pid;
                Wait pid (Some 5)]
               ++ (if exits_in_time pid
                   then [Print ("✅ " ++ name ++ " stopped")]
                   else [Print ("⚠️  Force killing " ++ name ++ "...");
                         Kill pid;
                         Wait pid None])) processes
   ++ [Print "👋 All agents stopped"])%list.

Definition terminated (trace : list Event) : list Z :=
  flat_map (fun ev => match ev with Terminate pid => [pid] | _ => [] end) trace.

Definition killed (trace : list Event) : list Z :=
  flat_map (fun ev => match ev with Kill pid => [pid] | _ => [] end) trace.

Definition printed (trace : list Event) : list string :=
  flat_map (fun ev => match ev with Print line => [line] | _ => [] end) trace.

End supervision.

(** ** test_system.py *)

Module test_system.

Inductive Event : Type :=
  | Print (line : string)
  | Import (module_name : string).

(** [importer module_name] is what an [import] of that module does inside
    its [try] block: [None] when it succeeds, the text of the exception
    otherwise. *)
Definition test_imports (importer : string -> option string) : list Event * bool :=
  match importer "damage_verifier" with
  | Some e =>
      ([Import "damage_verifier";
        Print ("❌ Damage verifier agent import failed: " ++ e)], false)
  | None =>
      let ev1 := [Import "damage_verifier";
                  Print "✅ Damage verifier agent imports successfully"] in
      match importer "payment_processor" with
      | Some e =>
          ((ev1 ++ [Import "payment_processor";
                    Print ("❌ Payment processor agent import failed: " ++ e)])%list,
           false)
      | None =>
          let ev2 := (ev1 ++ [Import "payment_processor";
                              Print "✅ Payment processor agent imports successfully"])%list in
          match importer "client" with
          | Some e =>
              ((ev2 ++ [Import "client"; Print ("❌ Client import failed: " ++ e)])%list,
               false)
          | None =>
              let ev3 := (ev2 ++ [Import "client";
                                  Print "✅ Client imports successfully"])%list in
              match importer "run_system" with
              | Some e =>
                  ((ev3 ++ [Import "run_system";
                            Print ("❌ System runner import failed: " ++ e)])%list,
                   false)
              | None =>
                  ((ev3 ++ [Import "run_system";
                            Print "✅ System runner imports successfully"])%list,
                   true)
              end
          end
      end
  end.

Definition test_environment (environ : Python.Environ) : list Event * bool :=
  let seed := Python.getenv environ "AGENT_SEED" in
  if Python.truthy seed
  then ([Print "✅ AGENT_SEED is set"], true)
  else ([Print "❌ AGENT_SEED is not set"], false).

Definition test_agent_creation (environ : Python.Environ)
    (importer : string -> option string) : list Event * bool :=
  match importer "damage_verifier" with
  | Some e =>
      ([Import "damage_verifier"; Print ("❌ DamageVerifier creation failed: " ++ e)],
       false)
  | None =>
      let ev1 :=
        [Import "damage_verifier";
         Print ("✅ DamageVerifier created: "
                ++ name (damage_verifier.damage_agent environ))] in
      match importer "payment_processor" with
      | Some e =>
          ((ev1 ++ [Import "payment_processor";
                    Print ("❌ PaymentProcessor creation failed: " ++ e)])%list,
           false)
      | None =>
          let ev2 :=
            (ev1 ++ [Import "payment_processor";
                     Print ("✅ PaymentProcessor created: "
                            ++ name (payment_processor.payment_agent environ))])%list in
          match importer "client" with
          | Some e =>
              ((ev2 ++ [Import "client";
                        Print ("❌ TestClient creation failed: " ++ e)])%list,
               false)
          | None =>
              ((ev2 ++ [Import "client";
                        Print ("✅ TestClient created: "
                               ++ name (client.client_agent environ))])%list,
               true)
          end
      end
  end.

(** The body of the [for] loop of [main], for one test and its result. *)
Definition run_test (test_name : string) (result : list Event * bool) (passed : Z)
  : list Event * Z :=
  let '(ev, ok) := result in
  if ok
  then ((Print (String "010" ("📋 " ++ test_name ++ ":")) :: ev)%list, passed + 1)
  else ((Print (String "010" ("📋 " ++ test_name ++ ":")) :: ev
         ++ [Print ("❌ " ++ test_name ++ " failed")])%list, passed).

(** [importer] answers the imports of [test_imports], [importer_again] those
    of [test_agent_creation], which runs later in the same process. *)
Definition main (environ : Python.Environ)
    (importer importer_again : string -> option string) : list Event * bool :=
  let header :=
    [Print "🧪 Testing uAgents Security Deposit System";
     Print (Python.str_repeat "=" 55)] in
  let passed := 0 in
  let total := 3 in
  let '(ev1, passed) := run_test "Import Tests" (test_imports importer) passed in
  let '(ev2, passed) := run_test "Environment Tests" (test_environment environ) passed in
  let '(ev3, passed) :=
    run_test "Agent Creation Tests" (test_agent_creation environ importer_again) passed in
  let results :=
    [Print (String "010" ("📊 Results: " ++ Python.str_int passed ++ "/"
                          ++ Python.str_int total ++ " tests passed"))] in
  let verdict :=
    if Z.eqb passed total
    then [Print "🎉 All tests passed! System is ready.";
          Print (String "010" "💡 To run the system:");
          Print "   1. Start agents: python run_system.py";
          Print "   2. Test system: python client.py";
          Print (String "010" "🏠 This system processes tenant security deposit refunds:");
          Print "   - DamageVerifier: Assesses property damage";
          Print "   - PaymentProcessor: Processes deposit refunds";
          Print "   - TestClient: Coordinates the workflow"]
    else [Print "❌ Some tests failed. Please fix the issues above."] in
  ((header ++ ev1 ++ ev2 ++ ev3 ++ results ++ verdict)%list, Z.eqb passed total).

Definition imported (trace : list Event) : list string :=
  flat_map (fun ev => match ev with Import m => [m] | _ => [] end) trace.

Definition printed (trace : list Event) : list string :=
  flat_map (fun ev => match ev with Print line => [line] | _ => [] end) trace.

Definition succeeds (importer : string -> option string) (module_name : string) : bool :=
  match importer module_name with None => true | Some _ => false end.

(** The modules of a list up to and including the first whose import
    fails. *)
Fixpoint up_to_first_failure (importer : string -> option string)
    (modules : list string) : list string :=
  match modules with
  | [] => []
  | m :: rest =>
      m :: (if succeeds importer m then up_to_first_failure importer rest else [])
  end.

End test_system.

(** * Properties *)

(** ** Sanity checks of the float model *)

Example lit_0_2_is_float : Float64.is_float Float64.lit_0_2 = true.
Proof. reflexivity. Qed.

Example lit_0_2_is_one_fifth :
  Float64.div (Float64.of_Z 1) (Float64.of_Z 5) = Float64.lit_0_2.
Proof. vm_compute. reflexivity. Qed.

Example lit_1000_is_1000 : Float64.of_Z 1000 = Float64.lit_1000.
Proof. vm_compute. reflexivity. Qed.

Example demo_deduction :
  Float64.mul Float64.lit_1000 Float64.lit_0_2 = Float64.of_Z 200.
Proof. vm_compute. reflexivity. Qed.

Example demo_approved :
  Float64.sub Float64.lit_1000 (Float64.of_Z 200) = Float64.of_Z 800.
Proof. vm_compute. reflexivity. Qed.

(** ** The damage assessor *)

(** C1: when [before_image] and [after_image] are the same string, the
    response sent back has decision [full_payout], deduction [0] and the
    claim amount as approved amount. *)
Theorem verify_damage_equal_images (sender : Address) (msg : DamageRequest.t) :
  DamageRequest.before_image msg = DamageRequest.after_image msg ->
  let response := snd (damage_verifier.verify_damage sender msg) in
  DamageResponse.decision response = "full_payout"
  /\ DamageResponse.deduction response = Float64.zero
  /\ DamageResponse.approved_amount response = DamageRequest.claim_amount msg.
Proof.
  intros Heq. unfold damage_verifier.verify_damage.
  rewrite Heq, String.eqb_refl. simpl. auto.
Qed.

(** C2: when the two image strings differ, the response has decision
    [deduct_payout], its deduction is the float product of the claim amount
    and [0.2], and its approved amount is the float difference of the claim
    amount and that deduction. *)
Theorem verify_damage_different_images (sender : Address) (msg : DamageRequest.t) :
  DamageRequest.before_image msg <> DamageRequest.after_image msg ->
  let response := snd (damage_verifier.verify_damage sender msg) in
  DamageResponse.decision response = "deduct_payout"
  /\ DamageResponse.deduction response
     = Float64.mul (DamageRequest.claim_amount msg) Float64.lit_0_2
  /\ DamageResponse.approved_amount response
     = Float64.sub (DamageRequest.claim_amount msg) (DamageResponse.deduction response).
Proof.
  intros Hneq. unfold damage_verifier.verify_damage.
  apply String.eqb_neq in Hneq. rewrite Hneq. simpl. auto.
Qed.

Lemma verify_damage_equal_images_witness :
  let msg := DamageRequest.mk "a.jpg" "a.jpg" Float64.lit_1000 "POL-1" in
  let response := snd (damage_verifier.verify_damage (AddressOfSeed "c") msg) in
  DamageResponse.decision response = "full_payout"
  /\ DamageResponse.deduction response = Float64.zero
  /\ DamageResponse.approved_amount response = Float64.lit_1000.
Proof.
  exact (verify_damage_equal_images (AddressOfSeed "c")
           (DamageRequest.mk "a.jpg" "a.jpg" Float64.lit_1000 "POL-1") eq_refl).
Defined.

Lemma verify_damage_different_images_witness :
  let response :=
    snd (damage_verifier.verify_damage (AddressOfSeed "c") client.demo_request) in
  DamageResponse.decision response = "deduct_payout"
  /\ DamageResponse.deduction response = Float64.mul Float64.lit_1000 Float64.lit_0_2
  /\ DamageResponse.approved_amount response
     = Float64.sub Float64.lit_1000 (DamageResponse.deduction response).
Proof.
  apply (verify_damage_different_images (AddressOfSeed "c") client.demo_request).
  simpl. discriminate.
Defined.

(** The two end-to-end scenarios of the specification, run on the model. *)
Example scenario_no_damage :
  let msg := DamageRequest.mk "same.jpg" "same.jpg" Float64.lit_1000 "POL-12345" in
  snd (damage_verifier.verify_damage (AddressOfSeed "c") msg)
  = DamageResponse.mk "full_payout" (Float64.of_Z 1000) Float64.zero "POL-12345".
Proof. vm_compute. reflexivity. Qed.

Example scenario_damage :
  snd (damage_verifier.verify_damage (AddressOfSeed "c") client.demo_request)
  = DamageResponse.mk "deduct_payout" (Float64.of_Z 800) (Float64.of_Z 200) "POL-12345".
Proof. vm_compute. reflexivity. Qed.

(** ** The payment processor *)

(** C4: the payment handler dispatches on the decision string:
    [full_payout] and [deduct_payout] pay the approved amount with status
    [completed], [error] pays [0] with status [failed], and every other
    string pays [0] with status [rejected]. *)
Theorem process_payment_dispatch (r : Z) (sender : Address) (msg : PaymentRequest.t) :
  let response := snd (payment_processor.process_payment r sender msg) in
  (PaymentRequest.decision msg = "full_payout"
   \/ PaymentRequest.decision msg = "deduct_payout" ->
   PaymentResponse.paid_amount response = PaymentRequest.approved_amount msg
   /\ PaymentResponse.status response = "completed")
  /\ (PaymentRequest.decision msg = "error" ->
      PaymentResponse.paid_amount response = Float64.zero
      /\ PaymentResponse.status response = "failed")
  /\ (PaymentRequest.decision msg <> "full_payout" ->
      PaymentRequest.decision msg <> "deduct_payout" ->
      PaymentRequest.decision msg <> "error" ->
      PaymentResponse.paid_amount response = Float64.zero
      /\ PaymentResponse.status response = "rejected").
Proof.
  unfold payment_processor.process_payment.
  destruct (String.eqb_spec (PaymentRequest.decision msg) "full_payout") as [E1|N1];
    [|destruct (String.eqb_spec (PaymentRequest.decision msg) "deduct_payout") as [E2|N2];
      [|destruct (String.eqb_spec (PaymentRequest.decision msg) "error") as [E3|N3]]];
    simpl; repeat split; intros;
    repeat match goal with H : _ \/ _ |- _ => destruct H end;
    congruence.
Qed.

Lemma process_payment_dispatch_witness :
  let full := PaymentRequest.mk "full_payout" Float64.lit_1000 "POL-1" in
  let err := PaymentRequest.mk "error" Float64.lit_1000 "POL-1" in
  let other := PaymentRequest.mk "refund please" Float64.lit_1000 "POL-1" in
  let pay m := snd (payment_processor.process_payment 123456 (AddressOfSeed "c") m) in
  (PaymentResponse.paid_amount (pay full) = Float64.lit_1000
   /\ PaymentResponse.status (pay full) = "completed")
  /\ (PaymentResponse.paid_amount (pay err) = Float64.zero
      /\ PaymentResponse.status (pay err) = "failed")
  /\ (PaymentResponse.paid_amount (pay other) = Float64.zero
      /\ PaymentResponse.status (pay other) = "rejected").
Proof.
  intros full err other pay. repeat apply conj.
  - apply (proj1 (process_payment_dispatch 123456 (AddressOfSeed "c") full)).
    left. reflexivity.
  - apply (proj1 (process_payment_dispatch 123456 (AddressOfSeed "c") full)).
    left. reflexivity.
  - apply (proj1 (proj2 (process_payment_dispatch 123456 (AddressOfSeed "c") err))).
    reflexivity.
  - apply (proj1 (proj2 (process_payment_dispatch 123456 (AddressOfSeed "c") err))).
    reflexivity.
  - apply (proj2 (proj2 (process_payment_dispatch 123456 (AddressOfSeed "c") other)));
      simpl; discriminate.
  - apply (proj2 (proj2 (process_payment_dispatch 123456 (AddressOfSeed "c") other)));
      simpl; discriminate.
Defined.

(** *** Decimal printing *)

Lemma digit_char_is_digit (d : Z) :
  0 <= d <= 9 ->
  numeral.is_decimal_digit (Python.digit_char d) = true
  /\ Z.of_N (N_of_ascii (Python.digit_char d)) - 48 = d.
Proof.
  intros Hd.
  assert (d = 0 \/ d = 1 \/ d = 2 \/ d = 3 \/ d = 4 \/ d = 5 \/ d = 6
          \/ d = 7 \/ d = 8 \/ d = 9) as Hcases by lia.
  repeat (destruct Hcases as [-> | Hcases]; [split; reflexivity|]).
  subst d. split; reflexivity.
Qed.

Lemma str_digits_last (fuel : nat) (n : Z) (acc : string) :
  n / 10 = 0 ->
  Python.str_digits (S fuel) n acc = String (Python.digit_char (n mod 10)) acc.
Proof. intros H. simpl. rewrite H. reflexivity. Qed.

Lemma str_digits_more (fuel : nat) (n : Z) (acc : string) :
  n / 10 <> 0 ->
  Python.str_digits (S fuel) n acc
  = Python.str_digits fuel (n / 10) (String (Python.digit_char (n mod 10)) acc).
Proof.
  intros H. simpl. destruct (Z.eqb_spec (n / 10) 0); [contradiction | reflexivity].
Qed.

Lemma str_int_six_digits (r : Z) :
  100000 <= r <= 999999 ->
  Python.str_int r
  = String (Python.digit_char (r / 100000 mod 10))
      (String (Python.digit_char (r / 10000 mod 10))
         (String (Python.digit_char (r / 1000 mod 10))
            (String (Python.digit_char (r / 100 mod 10))
               (String (Python.digit_char (r / 10 mod 10))
                  (String (Python.digit_char (r mod 10)) ""))))).
Proof.
  intros Hr. unfold Python.str_int.
  destruct (Z.ltb_spec r 0) as [Hneg|_]; [lia|].
  assert (16 <= Z.log2 r) as Hlog.
  { change 16 with (Z.log2 65536). apply Z.log2_le_mono. lia. }
  destruct (Z.to_nat (Z.log2 r)) as [|[|[|[|[|fuel]]]]] eqn:Hfuel; try lia.
  assert (r / 10 / 10 = r / 100) as E2 by (rewrite Z.div_div by lia; reflexivity).
  assert (r / 100 / 10 = r / 1000) as E3 by (rewrite Z.div_div by lia; reflexivity).
  assert (r / 1000 / 10 = r / 10000) as E4 by (rewrite Z.div_div by lia; reflexivity).
  assert (r / 10000 / 10 = r / 100000) as E5 by (rewrite Z.div_div by lia; reflexivity).
  rewrite str_digits_more by (Z.div_mod_to_equations; lia).
  rewrite str_digits_more by (rewrite E2; Z.div_mod_to_equations; lia).
  rewrite E2.
  rewrite str_digits_more by (rewrite E3; Z.div_mod_to_equations; lia).
  rewrite E3.
  rewrite str_digits_more by (rewrite E4; Z.div_mod_to_equations; lia).
  rewrite E4.
  rewrite str_digits_more by (rewrite E5; Z.div_mod_to_equations; lia).
  rewrite E5.
  rewrite str_digits_last by (Z.div_mod_to_equations; lia).
  reflexivity.
Qed.

Lemma parse_six_digits (d1 d2 d3 d4 d5 d6 : Z) :
  0 <= d1 <= 9 -> 0 <= d2 <= 9 -> 0 <= d3 <= 9 ->
  0 <= d4 <= 9 -> 0 <= d5 <= 9 -> 0 <= d6 <= 9 ->
  numeral.parse_decimal
    (String (Python.digit_char d1) (String (Python.digit_char d2)
       (String (Python.digit_char d3) (String (Python.digit_char d4)
          (String (Python.digit_char d5) (String (Python.digit_char d6) ""))))))
  = Some (100000 * d1 + 10000 * d2 + 1000 * d3 + 100 * d4 + 10 * d5 + d6).
Proof.
  intros H1 H2 H3 H4 H5 H6.
  destruct (digit_char_is_digit d1 H1) as [I1 V1].
  destruct (digit_char_is_digit d2 H2) as [I2 V2].
  destruct (digit_char_is_digit d3 H3) as [I3 V3].
  destruct (digit_char_is_digit d4 H4) as [I4 V4].
  destruct (digit_char_is_digit d5 H5) as [I5 V5].
  destruct (digit_char_is_digit d6 H6) as [I6 V6].
  unfold numeral.parse_decimal. cbn [numeral.int_of_digits].
  rewrite I1, I2, I3, I4, I5, I6, V1, V2, V3, V4, V5, V6.
  f_equal. lia.
Qed.

(** For a number drawn in the range, the transaction id is ["TXN_"] and the
    six decimal digits of that number. *)
Lemma transaction_id_of_draw (r : Z) (sender : Address) (msg : PaymentRequest.t) :
  100000 <= r <= 999999 ->
  PaymentResponse.transaction_id (snd (payment_processor.process_payment r sender msg))
  = "TXN_" ++ Python.str_int r
  /\ String.length (Python.str_int r) = 6%nat
  /\ numeral.parse_decimal (Python.str_int r) = Some r.
Proof.
  intros Hr. split; [|split].
  - unfold payment_processor.process_payment.
    destruct (String.eqb (PaymentRequest.decision msg) "full_payout"),
      (String.eqb (PaymentRequest.decision msg) "deduct_payout"),
      (String.eqb (PaymentRequest.decision msg) "error"); reflexivity.
  - rewrite (str_int_six_digits r Hr). reflexivity.
  - rewrite (str_int_six_digits r Hr).
    rewrite parse_six_digits by (Z.div_mod_to_equations; lia).
    f_equal. Z.div_mod_to_equations. lia.
Qed.

Lemma lcg_randint_contract : Python.randint_contract Python.lcg_randint.
Proof.
  intros a b g Hab. unfold Python.lcg_randint. cbn [fst].
  pose proof (Z.mod_pos_bound g (b - a + 1) ltac:(lia)). lia.
Qed.

(** C5: on every generator that keeps the contract of [random.randint], and
    in every state of it, the call [random.randint(100000, 999999)] of the
    handler yields a number between 100000 and 999999 inclusive, and the
    transaction id of the response is ["TXN_"] followed by a numeral of
    exactly six decimal digits that denotes this number; the rest of the
    response is computed from the request as for any draw. *)
Theorem process_payment_transaction_id_in_range {G : Type}
    (randint : Python.Randint G) (g : G) (sender : Address) (msg : PaymentRequest.t) :
  Python.randint_contract randint ->
  let drawn := fst (randint 100000 999999 g) in
  let sent := fst (payment_processor.process_payment_drawing randint g sender msg) in
  sent = payment_processor.process_payment drawn sender msg
  /\ 100000 <= drawn <= 999999
  /\ exists digits : string,
       PaymentResponse.transaction_id (snd sent) = "TXN_" ++ digits
       /\ String.length digits = 6%nat
       /\ numeral.parse_decimal digits = Some drawn.
Proof.
  intros Hcontract. cbv zeta.
  unfold payment_processor.process_payment_drawing.
  pose proof (Hcontract 100000 999999 g ltac:(lia)) as Hrange.
  destruct (randint 100000 999999 g) as [r g'] eqn:Hdraw.
  cbn [fst] in *.
  split; [reflexivity|]. split; [exact Hrange|].
  exists (Python.str_int r). apply transaction_id_of_draw, Hrange.
Qed.

Lemma process_payment_transaction_id_in_range_witness :
  let msg := PaymentRequest.mk "full_payout" Float64.lit_1000 "POL-12345" in
  let sent :=
    fst (payment_processor.process_payment_drawing Python.lcg_randint 2024
           (AddressOfSeed "c") msg) in
  sent = payment_processor.process_payment 102024 (AddressOfSeed "c") msg
  /\ 100000 <= 102024 <= 999999
  /\ exists digits : string,
       PaymentResponse.transaction_id (snd sent) = "TXN_" ++ digits
       /\ String.length digits = 6%nat
       /\ numeral.parse_decimal digits = Some 102024.
Proof.
  exact (process_payment_transaction_id_in_range Python.lcg_randint 2024
           (AddressOfSeed "c")
           (PaymentRequest.mk "full_payout" Float64.lit_1000 "POL-12345")
           lcg_randint_contract).
Defined.

(** The draw and the id on the linear congruential generator. *)
Example transaction_id_drawn :
  PaymentResponse.transaction_id
    (snd (fst (payment_processor.process_payment_drawing Python.lcg_randint 2024
                 (AddressOfSeed "c")
                 (PaymentRequest.mk "full_payout" Float64.lit_1000 "POL-12345"))))
  = "TXN_102024".
Proof. vm_compute. reflexivity. Qed.

Example transaction_id_314159 :
  PaymentResponse.transaction_id
    (snd (payment_processor.process_payment 314159 (AddressOfSeed "c")
            (PaymentRequest.mk "full_payout" Float64.lit_1000 "POL-12345")))
  = "TXN_314159".
Proof. vm_compute. reflexivity. Qed.

(** ** The correlation key *)

(** C6: [policy_id] travels unchanged through the four messages of a
    workflow: the damage response carries the request's policy id, the
    payment request the client builds from that response carries it too,
    and the payment response echoes the payment request's. *)
Theorem policy_id_preserved (environ : Python.Environ) (g : client.Globals)
    (r : Z) (client_address damage_address payment_sender : Address)
    (request : DamageRequest.t) :
  let damage_response := snd (damage_verifier.verify_damage client_address request) in
  let payment_request :=
    snd (snd (client.handle_damage_response environ g damage_address damage_response)) in
  let payment_response :=
    snd (payment_processor.process_payment r payment_sender payment_request) in
  DamageResponse.policy_id damage_response = DamageRequest.policy_id request
  /\ PaymentRequest.policy_id payment_request = DamageRequest.policy_id request
  /\ PaymentResponse.policy_id payment_response = PaymentRequest.policy_id payment_request
  /\ PaymentResponse.policy_id payment_response = DamageRequest.policy_id request.
Proof.
  unfold damage_verifier.verify_damage, client.handle_damage_response,
    payment_processor.process_payment.
  destruct (String.eqb (DamageRequest.before_image request)
              (DamageRequest.after_image request)); simpl;
    repeat match goal with
      | |- context [String.eqb ?a ?b] => destruct (String.eqb a b)
      end; simpl; auto.
Qed.

(** ** The orchestrator's interval task *)

(** The interval task of [client.py] does the same thing in every state of
    the client: it sends the demo request to the damage verifier and leaves
    the two globals as they are. *)
Lemma initiate_deposit_refund_unconditional (environ : Python.Environ)
    (g : client.Globals) :
  client.initiate_deposit_refund environ g
  = (g, (AddressOfSeed "damage_verifier_seed_12345_unique", client.demo_request)).
Proof. reflexivity. Qed.

(** C7 fails on the code: after one tick the workflow of the specification
    is in [AwaitingDamage], and after a complete exchange it is in [Done];
    in both situations the next tick sends a [DamageRequest] again. *)
Lemma tick_sends_when_not_idle :
  let environ : Python.Environ := ∅ in
  let client_address := address (client.client_agent environ) in
  let damage_response :=
    snd (damage_verifier.verify_damage client_address client.demo_request) in
  let payment_request :=
    snd (snd (client.handle_damage_response environ client.initial_globals
                (address (client.damage_agent environ)) damage_response)) in
  let payment_response :=
    snd (payment_processor.process_payment 123456 client_address payment_request) in
  let one_tick := [workflow.Tick] in
  let complete :=
    [workflow.Tick;
     workflow.GotDamageResponse (address (client.damage_agent environ)) damage_response;
     workflow.GotPaymentResponse (address (client.payment_agent environ)) payment_response] in
  (workflow.spec_state one_tick = workflow.AwaitingDamage
   /\ workflow.sends_damage_request
        (snd (workflow.client_step environ (workflow.client_run environ one_tick)
                workflow.Tick)) = true)
  /\ (workflow.spec_state complete = workflow.Done
      /\ workflow.sends_damage_request
           (snd (workflow.client_step environ (workflow.client_run environ complete)
                   workflow.Tick)) = true).
Proof. vm_compute. auto. Qed.

(** C7 (amended): on every tick, whatever events the client has seen
    before and whatever state the workflow of the specification is in, the
    interval task sends one [DamageRequest] with the hardcoded demo values to
    the damage verifier and changes none of the client's variables. *)
Theorem tick_always_sends_demo_request (environ : Python.Environ)
    (history : list workflow.ClientEvent) :
  workflow.client_step environ (workflow.client_run environ history) workflow.Tick
  = (workflow.client_run environ history,
     [workflow.SentDamageRequest
        (AddressOfSeed "damage_verifier_seed_12345_unique")
        (DamageRequest.mk "https://example.com/before.jpg"
                          "https://example.com/after.jpg"
                          (Float64.of_Z 1000) "POL-12345")]).
Proof.
  unfold workflow.client_step.
  rewrite initiate_deposit_refund_unconditional.
  rewrite lit_1000_is_1000. reflexivity.
Qed.

(** ** Seeds and the environment *)

(** C8 fails on the code: with [AGENT_SEED] set to some value, neither
    service agent is built with that value as its seed. *)
Lemma agent_seed_not_from_environment :
  let environ : Python.Environ := {[ "AGENT_SEED" := "correct horse battery staple" ]} in
  Python.getenv environ "AGENT_SEED" = Some "correct horse battery staple"
  /\ seed (damage_verifier.damage_agent environ) <> "correct horse battery staple"
  /\ seed (payment_processor.payment_agent environ) <> "correct horse battery staple".
Proof.
  simpl. split; [|split].
  - unfold Python.getenv. apply lookup_singleton_eq.
  - discriminate.
  - discriminate.
Qed.

(** C8 (amended): every agent is built with a seed written in the source,
    the same in every environment; [AGENT_SEED] is only tested for presence
    by the supervision script, whose check succeeds exactly when the
    variable is set to a non-empty value. *)
Theorem agent_seeds_hardcoded (environ : Python.Environ) :
  seed (damage_verifier.damage_agent environ) = "damage_verifier_seed_12345_unique"
  /\ seed (payment_processor.payment_agent environ) = "payment_processor_seed_67890_unique"
  /\ seed (client.client_agent environ) = "client_seed_phrase_abcde_unique"
  /\ client.damage_agent environ = damage_verifier.damage_agent environ
  /\ client.payment_agent environ = payment_processor.payment_agent environ
  /\ snd (run_system.check_env_vars environ)
     = Python.truthy (Python.getenv environ "AGENT_SEED").
Proof.
  repeat split.
  unfold run_system.check_env_vars. simpl.
  destruct (Python.truthy (Python.getenv environ "AGENT_SEED")); reflexivity.
Qed.

(** ** The supervision script *)

Lemma check_env_vars_missing (environ : Python.Environ) :
  Python.truthy (Python.getenv environ "AGENT_SEED") = false ->
  run_system.check_env_vars environ
  = ([run_system.Print "❌ Missing environment variables: AGENT_SEED";
      run_system.Print "Please set them in your .env file"], false).
Proof.
  intros H. unfold run_system.check_env_vars. simpl. rewrite H. reflexivity.
Qed.

(** C9: when [AGENT_SEED] is unset, [main] prints its banner, reports the
    missing variable and leaves through [sys.exit(1)]; no subprocess is
    launched, whatever [subprocess.Popen] would have done. *)
Theorem main_exits_without_agent_seed (environ : Python.Environ)
    (spawn : string -> Z + string) :
  Python.getenv environ "AGENT_SEED" = None ->
  run_system.main environ spawn
  = ([run_system.Print "🏠 Working Security Deposit Refund System";
      run_system.Print "=============================================";
      run_system.Print "❌ Missing environment variables: AGENT_SEED";
      run_system.Print "Please set them in your .env file"],
     run_system.SysExit 1)
  /\ forall script_name : string,
       ~ In (run_system.Popen script_name) (fst (run_system.main environ spawn)).
Proof.
  intros Hunset.
  assert (run_system.main environ spawn
          = ([run_system.Print "🏠 Working Security Deposit Refund System";
              run_system.Print "=============================================";
              run_system.Print "❌ Missing environment variables: AGENT_SEED";
              run_system.Print "Please set them in your .env file"],
             run_system.SysExit 1)) as Hmain.
  { unfold run_system.main.
    rewrite check_env_vars_missing by (rewrite Hunset; reflexivity).
    reflexivity. }
  split; [exact Hmain|].
  intros script_name. rewrite Hmain. simpl.
  intros [H|[H|[H|[H|[]]]]]; discriminate H.
Qed.

Lemma main_exits_without_agent_seed_witness :
  run_system.main ∅ (fun _ => inl 4242)
  = ([run_system.Print "🏠 Working Security Deposit Refund System";
      run_system.Print "=============================================";
      run_system.Print "❌ Missing environment variables: AGENT_SEED";
      run_system.Print "Please set them in your .env file"],
     run_system.SysExit 1)
  /\ forall script_name : string,
       ~ In (run_system.Popen script_name)
           (fst (run_system.main ∅ (fun _ => inl 4242))).
Proof.
  apply (main_exits_without_agent_seed ∅ (fun _ => inl 4242)).
  unfold Python.getenv. apply lookup_empty.
Defined.

(** With the variable set, both scripts are launched, in this order. *)
Example main_launches_with_agent_seed :
  List.filter (fun ev => match ev with run_system.Popen _ => true | _ => false end)
         (fst (run_system.main {[ "AGENT_SEED" := "s" ]} (fun _ => inl 4242)))
  = [run_system.Popen "damage_verifier.py"; run_system.Popen "payment_processor.py"].
Proof. vm_compute. reflexivity. Qed.

(** ** Binary64 rounding *)

Lemma digits2_pos_bounds (p : positive) :
  2 ^ (Zpos (digits2_pos p) - 1) <= Zpos p < 2 ^ Zpos (digits2_pos p).
Proof.
  induction p as [p IH|p IH|]; cbn [digits2_pos].
  - rewrite Pos2Z.inj_succ.
    replace (Z.succ (Zpos (digits2_pos p)) - 1) with (Z.succ (Zpos (digits2_pos p) - 1)) by lia.
    rewrite !Z.pow_succ_r by lia. lia.
  - rewrite Pos2Z.inj_succ.
    replace (Z.succ (Zpos (digits2_pos p)) - 1) with (Z.succ (Zpos (digits2_pos p) - 1)) by lia.
    rewrite !Z.pow_succ_r by lia. lia.
  - simpl. lia.
Qed.

Lemma Zdigits2_le (x n : Z) :
  0 <= x -> 0 <= n -> x < 2 ^ n -> Zdigits2 x <= n.
Proof.
  intros Hx Hn Hlt. destruct x as [|p|p]; cbn [Zdigits2]; try lia.
  pose proof (digits2_pos_bounds p) as [Hlo _].
  assert (2 ^ (Zpos (digits2_pos p) - 1) < 2 ^ n) as Hpow by lia.
  apply Z.pow_lt_mono_r_iff in Hpow; lia.
Qed.

Lemma Zdigits2_lt_pow (x : Z) : 0 <= x -> x < 2 ^ Zdigits2 x.
Proof.
  intros Hx. destruct x as [|p|p]; cbn [Zdigits2]; try lia.
  apply digits2_pos_bounds.
Qed.

Lemma iter_pos_invariant {A : Type} (f : A -> A) (P : Z -> A -> Prop) :
  (forall k x, 0 <= k -> P k x -> P (k + 1) (f x)) ->
  forall p k x, 0 <= k -> P k x -> P (k + Zpos p) (SpecFloat.iter_pos f p x).
Proof.
  intros Hstep. induction p as [p IH|p IH|]; intros k x Hk HP; cbn [SpecFloat.iter_pos].
  - replace (k + Zpos p~1) with (k + 1 + Zpos p + Zpos p) by lia.
    apply IH; [lia|]. apply IH; [lia|]. apply Hstep; assumption.
  - replace (k + Zpos p~0) with (k + Zpos p + Zpos p) by lia.
    apply IH; [lia|]. apply IH; assumption.
  - apply Hstep; assumption.
Qed.

Lemma shr_1_halves (mrs : shr_record) :
  0 <= shr_m mrs ->
  0 <= shr_m (shr_1 mrs)
  /\ shr_m mrs = 2 * shr_m (shr_1 mrs) + rounding.b2z (shr_r (shr_1 mrs))
  /\ shr_s (shr_1 mrs) = shr_r mrs || shr_s mrs.
Proof.
  destruct mrs as [m r s]. cbn [shr_m shr_r shr_s]. intros Hm.
  destruct m as [|[p|p|]|p]; cbn; repeat split; lia.
Qed.

Lemma shr_inv_step (M k : Z) (mrs : shr_record) :
  0 <= k -> rounding.shr_inv M k mrs -> rounding.shr_inv M (k + 1) (shr_1 mrs).
Proof.
  intros Hk (Hm & Ht & Hs).
  destruct (shr_1_halves mrs Hm) as (Hm' & Hhalf & Hsticky).
  unfold rounding.shr_inv. rewrite Z.pow_add_r by lia. change (2 ^ 1) with 2.
  assert (0 < 2 ^ k) as Hp by (apply Z.pow_pos_nonneg; lia).
  assert (0 <= rounding.b2z (shr_r mrs) <= 1) as Hr
      by (destruct (shr_r mrs); simpl; lia).
  assert (2 * (M - shr_m (shr_1 mrs) * (2 ^ k * 2))
          - rounding.b2z (shr_r (shr_1 mrs)) * (2 ^ k * 2)
          = 2 * (M - shr_m mrs * 2 ^ k)) as Hsame.
  { rewrite Hhalf. ring. }
  split; [exact Hm'|]. split.
  - rewrite Hsame. nia.
  - intros Hs'. rewrite Hsticky in Hs'. apply orb_false_iff in Hs' as [Hr0 Hs0].
    specialize (Hs Hs0). rewrite Hr0 in Hs. simpl in Hs. lia.
Qed.

Lemma shr_inv_shr (M e n : Z) (mrs : shr_record) :
  rounding.shr_inv M 0 mrs ->
  rounding.shr_inv M (Z.max n 0) (fst (shr mrs e n))
  /\ snd (shr mrs e n) = e + Z.max n 0.
Proof.
  intros Hinv. destruct n as [|p|p]; cbn [shr fst snd].
  - split; [exact Hinv | lia].
  - split; [|lia].
    replace (Z.max (Zpos p) 0) with (0 + Zpos p) by lia.
    apply iter_pos_invariant; [apply shr_inv_step | lia | exact Hinv].
  - split; [exact Hinv | lia].
Qed.

Lemma fexp_eq (e : Z) : fexp Float64.prec Float64.emax e = Z.max (e - 53) (-1074).
Proof. reflexivity. Qed.

Lemma shr_fexp_exact (M e : Z) :
  0 <= M ->
  let e1 := Z.max e (fexp Float64.prec Float64.emax (Zdigits2 M + e)) in
  rounding.shr_inv M (e1 - e) (fst (shr_fexp Float64.prec Float64.emax M e loc_Exact))
  /\ snd (shr_fexp Float64.prec Float64.emax M e loc_Exact) = e1.
Proof.
  intros HM e1. unfold shr_fexp.
  destruct (shr_inv_shr M e (fexp Float64.prec Float64.emax (Zdigits2 M + e) - e)
              (shr_record_of_loc M loc_Exact)) as [Hinv He].
  { repeat split; cbn; lia. }
  replace (e1 - e) with (Z.max (fexp Float64.prec Float64.emax (Zdigits2 M + e) - e) 0)
    by (unfold e1; lia).
  split; [exact Hinv | unfold e1; lia].
Qed.

Lemma round_nearest_even_error (M k : Z) (mrs : shr_record) :
  0 <= k ->
  rounding.shr_inv M k mrs ->
  let m2 := round_nearest_even (shr_m mrs) (loc_of_shr_record mrs) in
  shr_m mrs <= m2 <= shr_m mrs + 1
  /\ - 2 ^ k <= 2 * (M - m2 * 2 ^ k) <= 2 ^ k.
Proof.
  intros Hk (Hm & Ht & Hs). cbv zeta.
  assert (0 < 2 ^ k) as Hp by (apply Z.pow_pos_nonneg; lia).
  destruct mrs as [m [|] [|]]; cbn [shr_m shr_r shr_s rounding.b2z loc_of_shr_record
    round_nearest_even] in *.
  - split; [lia | nia].
  - specialize (Hs eq_refl). destruct (Z.even m); split; try lia; nia.
  - split; [lia | nia].
  - specialize (Hs eq_refl). split; [lia | nia].
Qed.

Lemma shr_fexp_canonical (m e : Z) :
  0 <= m < 2 ^ 53 -> -1074 <= e ->
  shr_fexp Float64.prec Float64.emax m e loc_Exact = (Build_shr_record m false false, e).
Proof.
  intros Hm He. unfold shr_fexp. rewrite fexp_eq.
  assert (Zdigits2 m <= 53) by (apply Zdigits2_le; lia).
  destruct (Z.max (Zdigits2 m + e - 53) (-1074) - e) as [|p|p] eqn:Hn;
    [reflexivity | lia | reflexivity].
Qed.

Lemma shr_fexp_carry (e : Z) :
  -1074 <= e ->
  shr_fexp Float64.prec Float64.emax (2 ^ 53) e loc_Exact
  = (Build_shr_record (2 ^ 52) false false, e + 1).
Proof.
  intros He. unfold shr_fexp. rewrite fexp_eq.
  change (Zdigits2 (2 ^ 53)) with 54.
  replace (Z.max (54 + e - 53) (-1074) - e) with 1 by lia.
  reflexivity.
Qed.

(** [binary_round_aux] on an exact non-negative integer mantissa [M] at
    exponent [e]: the result is at most half a unit of the target exponent
    [e1] away from [M * 2^e]. *)
Lemma binary_round_aux_spec (s : bool) (M e : Z) :
  0 <= M ->
  let e1 := Z.max e (fexp Float64.prec Float64.emax (Zdigits2 M + e)) in
  exists m3 e3 : Z,
    0 <= m3 < 2 ^ 53
    /\ (e3 = e1 \/ (e3 = e1 + 1 /\ m3 = 2 ^ 52))
    /\ - 2 ^ (e1 - e) <= 2 * (M - m3 * 2 ^ (e3 - e)) <= 2 ^ (e1 - e)
    /\ binary_round_aux Float64.prec Float64.emax s M e loc_Exact = rounding.pack s m3 e3.
Proof.
  intros HM e1.
  destruct (shr_fexp_exact M e HM) as [Hinv1 He1]. fold e1 in Hinv1, He1.
  assert (0 <= e1 - e) as Hk by (unfold e1; lia).
  assert (-1074 <= e1) as Hmin by (unfold e1; rewrite fexp_eq; lia).
  set (mrs1 := fst (shr_fexp Float64.prec Float64.emax M e loc_Exact)) in *.
  destruct (round_nearest_even_error M (e1 - e) mrs1 Hk Hinv1) as [Hm2 Herr].
  set (m2 := round_nearest_even (shr_m mrs1) (loc_of_shr_record mrs1)) in *.
  assert (0 < 2 ^ (e1 - e)) as Hp by (apply Z.pow_pos_nonneg; lia).
  destruct Hinv1 as (Hm1 & Ht & _).
  assert (shr_m mrs1 < 2 ^ 53) as Hm1lt.
  { pose proof (Zdigits2_lt_pow M HM) as HMlt.
    assert (0 <= rounding.b2z (shr_r mrs1)) by (destruct (shr_r mrs1); simpl; lia).
    assert (shr_m mrs1 * 2 ^ (e1 - e) <= M) by nia.
    assert (2 ^ Zdigits2 M <= 2 ^ (53 + (e1 - e))) as Hpow.
    { apply Z.pow_le_mono_r; [lia|]. unfold e1. rewrite fexp_eq. lia. }
    rewrite Z.pow_add_r in Hpow by lia.
    change (2 ^ 53) with 9007199254740992 in *. nia. }
  assert (binary_round_aux Float64.prec Float64.emax s M e loc_Exact
          = let '(mrs3, e3) := shr_fexp Float64.prec Float64.emax m2 e1 loc_Exact in
            rounding.pack s (shr_m mrs3) e3) as Hunfold.
  { unfold binary_round_aux.
    rewrite (surjective_pairing (shr_fexp Float64.prec Float64.emax M e loc_Exact)).
    rewrite He1. fold mrs1. fold m2.
    destruct (shr_fexp Float64.prec Float64.emax m2 e1 loc_Exact) as [mrs3 e3].
    reflexivity. }
  rewrite Hunfold.
  destruct (Z.eq_dec m2 (2 ^ 53)) as [Hcarry|Hnocarry].
  - rewrite Hcarry, shr_fexp_carry by exact Hmin. cbn [shr_m].
    exists (2 ^ 52), (e1 + 1). split; [change (2 ^ 52) with 4503599627370496;
      change (2 ^ 53) with 9007199254740992; lia|].
    split; [right; split; reflexivity|]. split; [|reflexivity].
    replace (e1 + 1 - e) with ((e1 - e) + 1) by lia.
    rewrite Z.pow_add_r by lia. change (2 ^ 1) with 2.
    replace (2 ^ 52 * (2 ^ (e1 - e) * 2)) with (2 ^ 53 * 2 ^ (e1 - e))
      by (change (2 ^ 53) with (2 ^ 52 * 2); ring).
    rewrite <- Hcarry. exact Herr.
  - assert (0 <= m2 < 2 ^ 53) as Hm2' by lia.
    rewrite shr_fexp_canonical by assumption. cbn [shr_m].
    exists m2, e1. split; [lia|]. split; [left; reflexivity|].
    split; [exact Herr | reflexivity].
Qed.

Lemma pow_scale_le (m n e1 e2 b b' : Z) :
  b <= e1 -> b <= e2 -> b' <= e1 -> b' <= e2 ->
  m * 2 ^ (e1 - b) <= n * 2 ^ (e2 - b) ->
  m * 2 ^ (e1 - b') <= n * 2 ^ (e2 - b').
Proof.
  intros H1 H2 H1' H2' Hle.
  set (z := Z.min e1 e2).
  assert (0 < 2 ^ (z - b)) by (apply Z.pow_pos_nonneg; unfold z; lia).
  assert (0 < 2 ^ (z - b')) by (apply Z.pow_pos_nonneg; unfold z; lia).
  replace (e1 - b) with ((e1 - z) + (z - b)) in Hle by lia.
  replace (e2 - b) with ((e2 - z) + (z - b)) in Hle by lia.
  replace (e1 - b') with ((e1 - z) + (z - b')) by lia.
  replace (e2 - b') with ((e2 - z) + (z - b')) by lia.
  rewrite !Z.pow_add_r in * by (unfold z; lia).
  nia.
Qed.

Lemma bounded_facts (mx : positive) (ex : Z) :
  bounded Float64.prec Float64.emax mx ex = true ->
  -1074 <= ex <= 971 /\ Zpos mx < 2 ^ 53.
Proof.
  unfold bounded, canonical_mantissa. rewrite andb_true_iff, Z.eqb_eq, Z.leb_le.
  rewrite fexp_eq. unfold Float64.emax, Float64.prec. intros [Hcanon Hle].
  split; [lia|].
  pose proof (digits2_pos_bounds mx) as [_ Hhi].
  eapply Z.lt_le_trans; [exact Hhi|].
  apply Z.pow_le_mono_r; lia.
Qed.

(** Multiplying a finite float by [0.2] keeps its sign and does not
    increase its magnitude. *)
Lemma mul_0_2_magnitude (sx : bool) (mx : positive) (ex : Z) :
  bounded Float64.prec Float64.emax mx ex = true ->
  let d := Float64.mul (S754_finite sx mx ex) Float64.lit_0_2 in
  d = S754_zero sx
  \/ exists (m3 : positive) (e3 : Z),
       d = S754_finite sx m3 e3
       /\ -1074 <= e3
       /\ rounding.V (Zpos m3) e3 <= rounding.V (Zpos mx) ex.
Proof.
  intros Hb d. destruct (bounded_facts mx ex Hb) as (Hex & Hmx).
  unfold d, Float64.mul, Float64.lit_0_2, SFmul. clear d. rewrite xorb_false_r.
  set (M := Zpos (mx * 7205759403792794)%positive). set (e := ex + -55).
  assert (M = Zpos mx * 7205759403792794) as HM by (unfold M; lia).
  assert (Zdigits2 M <= 106) as HdM.
  { apply Zdigits2_le; [lia | lia |].
    rewrite HM. change (2 ^ 106) with (2 ^ 53 * 2 ^ 53).
    change (2 ^ 53) with 9007199254740992 in *. nia. }
  pose proof (binary_round_aux_spec sx M e) as Hspec.
  set (e1 := Z.max e (fexp Float64.prec Float64.emax (Zdigits2 M + e))) in *.
  assert (0 <= e1 - e) as Hk0 by (unfold e1; lia).
  assert (-1074 <= e1 <= 969) as He1 by (unfold e1, e; rewrite fexp_eq; lia).
  assert (e1 - e <= 55 \/ e1 - e = Zdigits2 M - 53) as Hshift
      by (unfold e1, e; rewrite fexp_eq; lia).
  (* the first shift drops at most [55 + log2 mx] bits *)
  assert (2 ^ (e1 - e) <= 2 ^ 55 * Zpos mx) as Hk.
  { destruct Hshift as [Hsmall|Hshift].
    - assert (2 ^ (e1 - e) <= 2 ^ 55) by (apply Z.pow_le_mono_r; lia). nia.
    - pose proof (digits2_pos_bounds (mx * 7205759403792794)%positive) as [Hlo _].
      fold M in Hlo. change (Zpos (digits2_pos (mx * 7205759403792794)))
        with (Zdigits2 M) in Hlo.
      replace (Zdigits2 M - 1) with ((e1 - e) + 52) in Hlo by lia.
      rewrite Z.pow_add_r in Hlo by lia.
      change (2 ^ 52) with 4503599627370496 in Hlo.
      change (2 ^ 55) with 36028797018963968. nia. }
  destruct Hspec as (m3 & e3 & Hm3 & He3 & [Hle _] & ->); [lia|].
  assert (m3 * 2 ^ (e3 - e) <= Zpos mx * 2 ^ (ex - e)) as Hval.
  { replace (ex - e) with 55 by (unfold e; lia).
    change (2 ^ 55) with 36028797018963968 in *. nia. }
  assert (e <= e3 /\ -1074 <= e3 <= 970) as He3' by lia.
  destruct m3 as [|m3|m3]; [left; reflexivity | right | lia].
  unfold rounding.pack.
  replace (Z.leb e3 (Float64.emax - Float64.prec)) with true
    by (symmetry; apply Z.leb_le; unfold Float64.emax, Float64.prec; lia).
  exists m3, e3. split; [reflexivity|]. split; [lia|].
  unfold rounding.V.
  replace (e3 + 1074) with (e3 - (-1074)) by lia.
  replace (ex + 1074) with (ex - (-1074)) by lia.
  apply (pow_scale_le _ _ _ _ (Z.min e (-1074))); try lia.
  apply (pow_scale_le _ _ _ _ e); try lia.
Qed.

Lemma pos_iter_xO (m d : positive) :
  Zpos (Pos.iter xO m d) = Zpos m * 2 ^ Zpos d.
Proof.
  induction d as [|d IH] using Pos.peano_ind.
  - simpl. lia.
  - rewrite Pos.iter_succ, Pos2Z.inj_xO, IH, Pos2Z.inj_succ, Z.pow_succ_r by lia. ring.
Qed.

Lemma shl_align_spec (m : positive) (e e' : Z) :
  snd (shl_align m e e') = Z.min e e'
  /\ Zpos (fst (shl_align m e e')) = Zpos m * 2 ^ (e - Z.min e e').
Proof.
  unfold shl_align.
  destruct (e' - e) as [|d|d] eqn:Hd; cbn [fst snd].
  - replace (e - Z.min e e') with 0 by lia. split; [lia | simpl; lia].
  - replace (e - Z.min e e') with 0 by lia. split; [lia | simpl; lia].
  - split; [lia|]. rewrite pos_iter_xO. f_equal. f_equal. lia.
Qed.

Lemma V_digits (M e X : Z) :
  0 < M -> -1074 <= e -> -1074 <= X ->
  rounding.V M e < 2 ^ (53 + X + 1074) ->
  Zdigits2 M + e <= 53 + X.
Proof.
  unfold rounding.V. intros HM He HX Hlt.
  destruct M as [|p|p]; try lia. cbn [Zdigits2].
  pose proof (digits2_pos_bounds p) as [Hlo _].
  assert (0 < 2 ^ (e + 1074)) by (apply Z.pow_pos_nonneg; lia).
  assert (2 ^ (Zpos (digits2_pos p) - 1 + (e + 1074)) < 2 ^ (53 + X + 1074)) as Hpow.
  { rewrite Z.pow_add_r by lia. nia. }
  apply Z.pow_lt_mono_r_iff in Hpow; lia.
Qed.

Lemma V_rescale (m e b : Z) :
  -1074 <= b <= e -> rounding.V (m * 2 ^ (e - b)) b = rounding.V m e.
Proof.
  intros Hb. unfold rounding.V.
  replace (e + 1074) with ((e - b) + (b + 1074)) by lia.
  rewrite (Z.pow_add_r 2 (e - b) (b + 1074)) by lia. ring.
Qed.

(** [binary_round] of the integer [m] at exponent [e], when [m * 2^e] lies
    below [2^(53 + X)]: the result is within half a unit of exponent [X]. *)
Lemma binary_round_near (s : bool) (m : positive) (e X : Z) :
  -1074 <= e -> -1074 <= X ->
  rounding.V (Zpos m) e < 2 ^ (53 + X + 1074) ->
  exists m3 e3 : Z,
    0 <= m3 < 2 ^ 53
    /\ -1074 <= e3
    /\ (e3 <= X \/ (e3 = X + 1 /\ m3 = 2 ^ 52))
    /\ - 2 ^ (X + 1074) <= 2 * (rounding.V (Zpos m) e - rounding.V m3 e3) <= 2 ^ (X + 1074)
    /\ binary_round Float64.prec Float64.emax s m e = rounding.pack s m3 e3.
Proof.
  intros He HX Hlt. unfold binary_round.
  pose proof (V_digits (Zpos m) e X ltac:(lia) He HX Hlt) as Hdm.
  set (f := fexp Float64.prec Float64.emax (Zpos (digits2_pos m) + e)).
  assert (-1074 <= f <= X) as Hf
      by (unfold f; rewrite fexp_eq; cbn [Zdigits2] in Hdm; lia).
  destruct (shl_align_spec m e f) as [Hez Hmz].
  rewrite (surjective_pairing (shl_align m e f)).
  set (ez := snd (shl_align m e f)) in *.
  set (Mz := Zpos (fst (shl_align m e f))) in *.
  assert (-1074 <= ez <= X /\ ez <= e) as Hez' by lia.
  assert (rounding.V Mz ez = rounding.V (Zpos m) e) as HV.
  { rewrite Hmz, <- Hez. apply V_rescale. lia. }
  assert (0 < Mz) as HMz by (unfold Mz; lia).
  pose proof (V_digits Mz ez X HMz ltac:(lia) HX ltac:(rewrite HV; exact Hlt)) as HdM.
  pose proof (binary_round_aux_spec s Mz ez ltac:(lia)) as Hspec.
  set (e1 := Z.max ez (fexp Float64.prec Float64.emax (Zdigits2 Mz + ez))) in *.
  assert (ez <= e1 <= X) as He1 by (unfold e1; rewrite fexp_eq; lia).
  destruct Hspec as (m3 & e3 & Hm3 & He3 & Herr & ->).
  exists m3, e3. split; [exact Hm3|]. split; [lia|]. split; [lia|].
  split; [|reflexivity].
  rewrite <- HV.
  assert (rounding.V m3 e3 = m3 * 2 ^ (e3 - ez) * 2 ^ (ez + 1074)) as HV3.
  { rewrite <- (V_rescale m3 e3 ez) by lia. reflexivity. }
  rewrite HV3. unfold rounding.V.
  assert (0 < 2 ^ (ez + 1074)) by (apply Z.pow_pos_nonneg; lia).
  assert (2 ^ (e1 - ez) * 2 ^ (ez + 1074) <= 2 ^ (X + 1074)) as Hpow.
  { rewrite <- Z.pow_add_r by lia. apply Z.pow_le_mono_r; lia. }
  nia.
Qed.

Lemma binary_normalize_signed (s : bool) (n : positive) (e : Z) :
  binary_normalize Float64.prec Float64.emax (cond_Zopp s (Zpos n)) e false
  = binary_round Float64.prec Float64.emax s n e.
Proof. destruct s; reflexivity. Qed.

Lemma sub_same_sign (s : bool) (mx my : positive) (ex ey : Z) :
  Float64.sub (S754_finite s mx ex) (S754_finite s my ey)
  = binary_normalize Float64.prec Float64.emax
      (cond_Zopp s (Zpos mx * 2 ^ (ex - Z.min ex ey) - Zpos my * 2 ^ (ey - Z.min ex ey)))
      (Z.min ex ey) false.
Proof.
  unfold Float64.sub, SFsub.
  destruct (shl_align_spec mx ex (Z.min ex ey)) as [_ ->].
  destruct (shl_align_spec my ey (Z.min ex ey)) as [_ ->].
  replace (Z.min ex (Z.min ex ey)) with (Z.min ex ey) by lia.
  replace (Z.min ey (Z.min ex ey)) with (Z.min ex ey) by lia.
  f_equal. destruct s; cbn [cond_Zopp]; lia.
Qed.

Lemma add_same_sign (s : bool) (mx my : positive) (ex ey : Z) :
  Float64.add (S754_finite s mx ex) (S754_finite s my ey)
  = binary_normalize Float64.prec Float64.emax
      (cond_Zopp s (Zpos mx * 2 ^ (ex - Z.min ex ey) + Zpos my * 2 ^ (ey - Z.min ex ey)))
      (Z.min ex ey) false.
Proof.
  unfold Float64.add, SFadd.
  destruct (shl_align_spec mx ex (Z.min ex ey)) as [_ ->].
  destruct (shl_align_spec my ey (Z.min ex ey)) as [_ ->].
  replace (Z.min ex (Z.min ex ey)) with (Z.min ex ey) by lia.
  replace (Z.min ey (Z.min ex ey)) with (Z.min ex ey) by lia.
  f_equal. destruct s; cbn [cond_Zopp]; lia.
Qed.

Lemma pack_finite (s : bool) (m3 e3 : Z) :
  0 <= m3 -> e3 <= 971 ->
  Float64.is_finite (rounding.pack s m3 e3) = true
  /\ Float64.scaled (rounding.pack s m3 e3) = cond_Zopp s (rounding.V m3 e3).
Proof.
  intros Hm He. unfold rounding.pack. destruct m3 as [|m|m]; [| |lia].
  - split; [reflexivity|]. unfold rounding.V. destruct s; reflexivity.
  - replace (Z.leb e3 (Float64.emax - Float64.prec)) with true
      by (symmetry; apply Z.leb_le; unfold Float64.emax, Float64.prec; lia).
    split; reflexivity.
Qed.

Lemma cond_Zopp_diff (s : bool) (a b : Z) :
  Z.abs (cond_Zopp s a - cond_Zopp s b) = Z.abs (a - b).
Proof. destruct s; cbn [cond_Zopp]; lia. Qed.

(** Taking [d] away from [c] and adding it back, for floats of one sign
    with [|d| <= |c|], lands within one unit in the last place of [c]. *)
Lemma sub_add_back (sc : bool) (mx md : positive) (ex ed : Z) :
  bounded Float64.prec Float64.emax mx ex = true ->
  -1074 <= ed ->
  rounding.V (Zpos md) ed <= rounding.V (Zpos mx) ex ->
  (ex = 971 -> Zpos mx < 2 ^ 53 - 1) ->
  let c := S754_finite sc mx ex in
  let d := S754_finite sc md ed in
  let s := Float64.add (Float64.sub c d) d in
  Float64.is_finite s = true
  /\ Z.abs (Float64.scaled s - Float64.scaled c) <= 2 ^ (ex + 1074).
Proof.
  intros Hb Hed Hle Hmax. cbv zeta.
  destruct (bounded_facts mx ex Hb) as (Hex & Hmx).
  set (P := 2 ^ (ex + 1074)).
  assert (0 < P) as HP by (apply Z.pow_pos_nonneg; lia).
  set (C := rounding.V (Zpos mx) ex) in *.
  set (D := rounding.V (Zpos md) ed) in *.
  assert (C = Zpos mx * P) as HC by reflexivity.
  assert (0 < D) as HD.
  { unfold D, rounding.V. apply Z.mul_pos_pos; [lia|]. apply Z.pow_pos_nonneg; lia. }
  assert (2 ^ (53 + ex + 1074) = 2 ^ 53 * P) as H53.
  { unfold P. rewrite <- Z.pow_add_r by lia. f_equal. lia. }
  assert (Float64.scaled (S754_finite sc mx ex) = cond_Zopp sc C) as HsC by reflexivity.
  assert (Float64.scaled (S754_finite sc md ed) = cond_Zopp sc D) as HsD by reflexivity.
  rewrite HsC.
  (* the difference *)
  rewrite sub_same_sign.
  set (ez := Z.min ex ed).
  assert (-1074 <= ez) as Hez by (unfold ez; lia).
  set (N := Zpos mx * 2 ^ (ex - ez) - Zpos md * 2 ^ (ed - ez)).
  assert (rounding.V N ez = C - D) as HN.
  { unfold N, C, D. rewrite <- (V_rescale (Zpos mx) ex ez) by (unfold ez; lia).
    rewrite <- (V_rescale (Zpos md) ed ez) by (unfold ez; lia).
    unfold rounding.V. ring. }
  assert (0 <= N) as HN0.
  { assert (0 < 2 ^ (ez + 1074)) by (apply Z.pow_pos_nonneg; lia).
    unfold rounding.V in HN. nia. }
  destruct N as [|n|n] eqn:HNeq; [| |lia].
  { (* the difference is exactly zero *)
    replace (cond_Zopp sc 0) with 0 by (destruct sc; reflexivity).
    cbn [binary_normalize Float64.add SFadd].
    split; [reflexivity|]. rewrite HsD, cond_Zopp_diff.
    unfold rounding.V in HN. lia. }
  rewrite binary_normalize_signed.
  destruct (binary_round_near sc n ez ex Hez ltac:(lia))
    as (ma & ea & Hma & Hea & Hcarry & Herr & ->).
  { rewrite HN, H53. change (2 ^ 53) with 9007199254740992 in *. nia. }
  rewrite HN in Herr. fold P in Herr.
  set (A := rounding.V ma ea) in *.
  assert (ea <= ex) as Hea'.
  { destruct Hcarry as [Hle'|[-> ->]]; [exact Hle'|].
    exfalso. unfold A, rounding.V in Herr.
    replace (ex + 1 + 1074) with (1 + (ex + 1074)) in Herr by lia.
    rewrite Z.pow_add_r in Herr by lia. fold P in Herr.
    replace (2 ^ 52 * (2 ^ 1 * P)) with (9007199254740992 * P) in Herr
      by (change (2 ^ 52) with 4503599627370496; change (2 ^ 1) with 2; ring).
    change (2 ^ 53) with 9007199254740992 in *. nia. }
  unfold rounding.pack.
  destruct ma as [|ma|ma]; [| |lia].
  { (* the difference rounds to zero *)
    cbn [Float64.add SFadd]. split; [reflexivity|].
    rewrite HsD, cond_Zopp_diff.
    unfold A, rounding.V in Herr. lia. }
  replace (Z.leb ea (Float64.emax - Float64.prec)) with true
    by (symmetry; apply Z.leb_le; unfold Float64.emax, Float64.prec; lia).
  (* adding the deduction back *)
  rewrite add_same_sign.
  set (ez2 := Z.min ea ed).
  assert (-1074 <= ez2) as Hez2 by (unfold ez2; lia).
  set (N2 := Zpos ma * 2 ^ (ea - ez2) + Zpos md * 2 ^ (ed - ez2)).
  assert (rounding.V N2 ez2 = A + D) as HN2.
  { unfold N2, A, D. rewrite <- (V_rescale (Zpos ma) ea ez2) by (unfold ez2; lia).
    rewrite <- (V_rescale (Zpos md) ed ez2) by (unfold ez2; lia).
    unfold rounding.V. ring. }
  assert (0 < N2) as HN2pos.
  { unfold N2.
    assert (0 < 2 ^ (ea - ez2)) by (apply Z.pow_pos_nonneg; unfold ez2; lia).
    assert (0 < 2 ^ (ed - ez2)) by (apply Z.pow_pos_nonneg; unfold ez2; lia).
    nia. }
  destruct N2 as [|n2|n2] eqn:HN2eq; try lia.
  rewrite binary_normalize_signed.
  destruct (binary_round_near sc n2 ez2 ex Hez2 ltac:(lia))
    as (ms & es & Hms & Hes & Hcarry2 & Herr2 & ->).
  { rewrite HN2, H53. change (2 ^ 53) with 9007199254740992 in *. nia. }
  rewrite HN2 in Herr2. fold P in Herr2.
  set (S := rounding.V ms es) in *.
  assert (es <= 971) as Hes'.
  { destruct Hcarry2 as [Hle'|[-> ->]]; [lia|].
    destruct (Z.eq_dec ex 971) as [Hex971|]; [|lia].
    exfalso. specialize (Hmax Hex971).
    unfold S, rounding.V in Herr2.
    replace (ex + 1 + 1074) with (1 + (ex + 1074)) in Herr2 by lia.
    rewrite Z.pow_add_r in Herr2 by lia. fold P in Herr2.
    replace (2 ^ 52 * (2 ^ 1 * P)) with (9007199254740992 * P) in Herr2
      by (change (2 ^ 52) with 4503599627370496; change (2 ^ 1) with 2; ring).
    change (2 ^ 53) with 9007199254740992 in *. nia. }
  destruct (pack_finite sc ms es ltac:(lia) Hes') as [Hfin Hscaled].
  split; [exact Hfin|].
  rewrite Hscaled, cond_Zopp_diff. fold S. lia.
Qed.

Lemma binary_round_signed (s : bool) (m : positive) (e : Z) :
  rounding.signed_or_zero s (binary_round Float64.prec Float64.emax s m e).
Proof.
  unfold binary_round.
  destruct (shl_align m e _) as [mz ez].
  destruct (binary_round_aux_spec s (Zpos mz) ez ltac:(lia)) as (m3 & e3 & Hm3 & _ & _ & ->).
  unfold rounding.pack. destruct m3 as [|m3|m3]; [left; reflexivity | | lia].
  destruct (Z.leb _ _); [right; left; eauto | right; right; reflexivity].
Qed.

Lemma signed_or_zero_leb (x : float) :
  rounding.signed_or_zero true x -> Float64.leb x Float64.zero = true.
Proof. intros [->|[(m & e & ->)| ->]]; reflexivity. Qed.

(** [x - y] for two negative floats with [|y| <= |x|] is not positive. *)
Lemma sub_negatives_leb (mx my : positive) (ex ey : Z) :
  -1074 <= ex -> -1074 <= ey ->
  rounding.V (Zpos my) ey <= rounding.V (Zpos mx) ex ->
  Float64.leb (Float64.sub (S754_finite true mx ex) (S754_finite true my ey))
              Float64.zero = true.
Proof.
  intros Hex Hey Hle. rewrite sub_same_sign.
  set (ez := Z.min ex ey).
  rewrite <- (V_rescale (Zpos mx) ex ez), <- (V_rescale (Zpos my) ey ez) in Hle
    by (unfold ez; lia).
  unfold rounding.V in Hle.
  assert (0 < 2 ^ (ez + 1074)) by (apply Z.pow_pos_nonneg; unfold ez; lia).
  destruct (Zpos mx * 2 ^ (ex - ez) - Zpos my * 2 ^ (ey - ez)) as [|n|n] eqn:Hdiff.
  - reflexivity.
  - rewrite binary_normalize_signed.
    apply signed_or_zero_leb, binary_round_signed.
  - nia.
Qed.

(** For a finite claim amount that is not positive, neither the deduction
    nor the approved amount is positive. *)
Lemma deduct_nonpositive (c : float) :
  Float64.is_float c = true ->
  Float64.is_finite c = true ->
  Float64.leb c Float64.zero = true ->
  let d := Float64.mul c Float64.lit_0_2 in
  let a := Float64.sub c d in
  Float64.leb d Float64.zero = true /\ Float64.leb a Float64.zero = true.
Proof.
  intros Hvalid Hfin Hle. destruct c as [s|s| |s mx ex]; try discriminate Hfin.
  - destruct s; split; reflexivity.
  - destruct s; [|discriminate Hle].
    unfold Float64.is_float in Hvalid. cbn [valid_binary] in Hvalid.
    cbv zeta.
    destruct (mul_0_2_magnitude true mx ex Hvalid) as [->|(m3 & e3 & -> & He3 & Hval)].
    + split; reflexivity.
    + split; [reflexivity|].
      destruct (bounded_facts mx ex Hvalid) as [[Hex _] _].
      exact (sub_negatives_leb mx m3 ex e3 Hex He3 Hval).
Qed.

(** For a finite claim amount, the deduction taken away and added back
    gives a finite float within one unit in the last place of the claim. *)
Lemma deduct_add_back (c : float) :
  Float64.is_float c = true ->
  Float64.is_finite c = true ->
  let d := Float64.mul c Float64.lit_0_2 in
  let s := Float64.add (Float64.sub c d) d in
  Float64.is_finite s = true
  /\ Z.abs (Float64.scaled s - Float64.scaled c) <= Float64.ulp_scaled c.
Proof.
  intros Hvalid Hfin. destruct c as [s|s| |sc mx ex]; try discriminate Hfin.
  - destruct s; cbv zeta; (split; [reflexivity | vm_compute; discriminate]).
  - unfold Float64.is_float in Hvalid. cbn [valid_binary] in Hvalid.
    cbv zeta. cbn [Float64.ulp_scaled].
    destruct (bounded_facts mx ex Hvalid) as (Hex & Hmx).
    destruct (Z.eq_dec ex 971) as [->|Hex971].
    + destruct (Pos.eq_dec mx 9007199254740991%positive) as [->|Hmxmax].
      * destruct sc; (split; [reflexivity | vm_compute; discriminate]).
      * destruct (mul_0_2_magnitude sc mx 971 Hvalid)
          as [->|(md & ed & -> & Hed & Hval)].
        -- cbn [Float64.sub SFsub Float64.add SFadd].
           split; [reflexivity|]. rewrite Z.sub_diag. simpl. lia.
        -- apply sub_add_back; try assumption.
           intros _. change (2 ^ 53) with 9007199254740992 in *. lia.
    + destruct (mul_0_2_magnitude sc mx ex Hvalid)
        as [->|(md & ed & -> & Hed & Hval)].
      * cbn [Float64.sub SFsub Float64.add SFadd].
        split; [reflexivity|]. rewrite Z.sub_diag. simpl.
        assert (0 < 2 ^ (ex + 1074)) by (apply Z.pow_pos_nonneg; lia). lia.
      * apply sub_add_back; try assumption. intros; contradiction.
Qed.

(** ** Amounts of the damage response *)

Lemma eqb_refl_not_nan (x : float) :
  Float64.is_nan x = false -> Float64.eqb x x = true.
Proof.
  destruct x as [s|s| |s m e]; intros Hnan; try discriminate Hnan.
  - reflexivity.
  - destruct s; reflexivity.
  - unfold Float64.eqb, SFeqb, SFcompare.
    rewrite Z.compare_refl, Pos.compare_cont_refl. destruct s; reflexivity.
Qed.

Lemma add_zero_eqb (x : float) :
  Float64.is_nan x = false -> Float64.eqb (Float64.add x Float64.zero) x = true.
Proof.
  destruct x as [s|s| |s m e]; intros Hnan; try discriminate Hnan.
  - destruct s; reflexivity.
  - destruct s; reflexivity.
  - apply (eqb_refl_not_nan (S754_finite s m e)). reflexivity.
Qed.

(** C3 fails on the code: for a claim of 1.89 with differing images the
    deduction is 0.378 and the approved amount 1.512, whose float sum is
    1.8900000000000001, one unit in the last place above the claim. *)
Lemma sum_invariant_fails_at_1_89 :
  let claim : float := S754_finite false 8511803295730237 (-52) in
  let msg := DamageRequest.mk "https://example.com/before.jpg"
                              "https://example.com/after.jpg" claim "POL-12345" in
  let response := snd (damage_verifier.verify_damage (AddressOfSeed "c") msg) in
  Float64.is_float claim = true
  /\ DamageResponse.deduction response = S754_finite false 6809442636584190 (-54)
  /\ DamageResponse.approved_amount response = S754_finite false 6809442636584190 (-52)
  /\ Float64.add (DamageResponse.approved_amount response)
                 (DamageResponse.deduction response)
     = S754_finite false 8511803295730238 (-52)
  /\ Float64.eqb (Float64.add (DamageResponse.approved_amount response)
                              (DamageResponse.deduction response))
                 (DamageRequest.claim_amount msg) = false.
Proof. vm_compute. repeat split. Qed.

(** C3 (amended): when the two images are equal and the claim amount is not
    NaN, the approved amount plus the deduction compares equal to the claim
    amount.  When they differ and the claim amount is finite, the float sum
    of the approved amount and the deduction is a finite float that differs
    from the claim amount by at most one unit in the last place of the
    claim amount. *)
Theorem sum_invariant_up_to_rounding (sender : Address) (msg : DamageRequest.t) :
  let claim := DamageRequest.claim_amount msg in
  let response := snd (damage_verifier.verify_damage sender msg) in
  let total := Float64.add (DamageResponse.approved_amount response)
                           (DamageResponse.deduction response) in
  (DamageRequest.before_image msg = DamageRequest.after_image msg ->
   Float64.is_nan claim = false ->
   Float64.eqb total claim = true)
  /\ (DamageRequest.before_image msg <> DamageRequest.after_image msg ->
      Float64.is_float claim = true ->
      Float64.is_finite claim = true ->
      Float64.is_finite total = true
      /\ Z.abs (Float64.scaled total - Float64.scaled claim) <= Float64.ulp_scaled claim).
Proof.
  cbv zeta. split.
  - intros Heq Hnan. unfold damage_verifier.verify_damage.
    rewrite Heq, String.eqb_refl. cbn [snd DamageResponse.approved_amount
      DamageResponse.deduction]. apply add_zero_eqb, Hnan.
  - intros Hneq Hfloat Hfinite. unfold damage_verifier.verify_damage.
    apply String.eqb_neq in Hneq. rewrite Hneq.
    cbn [snd DamageResponse.approved_amount DamageResponse.deduction].
    exact (deduct_add_back _ Hfloat Hfinite).
Qed.

Lemma sum_invariant_up_to_rounding_witness :
  let same := DamageRequest.mk "a.jpg" "a.jpg" Float64.lit_1000 "POL-1" in
  let response_same := snd (damage_verifier.verify_damage (AddressOfSeed "c") same) in
  let claim : float := S754_finite false 8511803295730237 (-52) in
  let differ := DamageRequest.mk "before.jpg" "after.jpg" claim "POL-1" in
  let response_differ := snd (damage_verifier.verify_damage (AddressOfSeed "c") differ) in
  let total := Float64.add (DamageResponse.approved_amount response_differ)
                           (DamageResponse.deduction response_differ) in
  Float64.eqb (Float64.add (DamageResponse.approved_amount response_same)
                           (DamageResponse.deduction response_same))
              Float64.lit_1000 = true
  /\ Float64.is_finite total = true
  /\ Z.abs (Float64.scaled total - Float64.scaled claim) <= Float64.ulp_scaled claim.
Proof.
  cbv zeta. split.
  - apply (proj1 (sum_invariant_up_to_rounding (AddressOfSeed "c")
                    (DamageRequest.mk "a.jpg" "a.jpg" Float64.lit_1000 "POL-1")));
      reflexivity.
  - apply (proj2 (sum_invariant_up_to_rounding (AddressOfSeed "c")
                    (DamageRequest.mk "before.jpg" "after.jpg"
                       (S754_finite false 8511803295730237 (-52)) "POL-1"))).
    + simpl. discriminate.
    + reflexivity.
    + reflexivity.
Defined.

(** For the demo claim of 1000.0 the sum does return to the claim. *)
Example demo_sum_invariant :
  let response :=
    snd (damage_verifier.verify_damage (AddressOfSeed "c") client.demo_request) in
  Float64.add (DamageResponse.approved_amount response)
              (DamageResponse.deduction response)
  = Float64.lit_1000.
Proof. vm_compute. reflexivity. Qed.

(** C10 fails on the code at minus infinity: the deduction is minus
    infinity too, and the approved amount, their difference, is NaN, which
    does not compare [<= 0]. *)
Lemma approved_amount_nan_at_minus_infinity :
  let msg := DamageRequest.mk "https://example.com/before.jpg"
                              "https://example.com/after.jpg"
                              (S754_infinity true) "POL-12345" in
  let response := snd (damage_verifier.verify_damage (AddressOfSeed "c") msg) in
  Float64.leb (DamageRequest.claim_amount msg) Float64.zero = true
  /\ DamageRequest.before_image msg <> DamageRequest.after_image msg
  /\ DamageResponse.deduction response = S754_infinity true
  /\ DamageResponse.approved_amount response = S754_nan
  /\ Float64.leb (DamageResponse.approved_amount response) Float64.zero = false.
Proof. cbv zeta. repeat split. simpl. discriminate. Qed.

(** C10 (amended): for every finite claim amount [<= 0] the handler answers
    by the same two branches as for any other amount, without a validation
    or error branch: with equal images the full claim is approved and the
    deduction is [0]; with differing images the deduction is the claim
    amount times [0.2], the approved amount is the claim amount minus the
    deduction, and both compare [<= 0]. *)
Theorem verify_damage_nonpositive_claim (sender : Address) (msg : DamageRequest.t) :
  Float64.is_float (DamageRequest.claim_amount msg) = true ->
  Float64.is_finite (DamageRequest.claim_amount msg) = true ->
  Float64.leb (DamageRequest.claim_amount msg) Float64.zero = true ->
  let claim := DamageRequest.claim_amount msg in
  let response := snd (damage_verifier.verify_damage sender msg) in
  fst (damage_verifier.verify_damage sender msg) = sender
  /\ (DamageRequest.before_image msg = DamageRequest.after_image msg ->
      response = DamageResponse.mk "full_payout" claim Float64.zero
                                   (DamageRequest.policy_id msg))
  /\ (DamageRequest.before_image msg <> DamageRequest.after_image msg ->
      response = DamageResponse.mk "deduct_payout"
                   (Float64.sub claim (Float64.mul claim Float64.lit_0_2))
                   (Float64.mul claim Float64.lit_0_2)
                   (DamageRequest.policy_id msg)
      /\ Float64.leb (DamageResponse.deduction response) Float64.zero = true
      /\ Float64.leb (DamageResponse.approved_amount response) Float64.zero = true).
Proof.
  intros Hfloat Hfinite Hle. cbv zeta.
  unfold damage_verifier.verify_damage.
  destruct (String.eqb_spec (DamageRequest.before_image msg)
              (DamageRequest.after_image msg)) as [Heq|Hneq]; cbn [fst snd].
  - split; [reflexivity|]. split; [reflexivity | contradiction].
  - split; [reflexivity|]. split; [contradiction|]. intros _.
    split; [reflexivity|].
    cbn [DamageResponse.deduction DamageResponse.approved_amount].
    exact (deduct_nonpositive _ Hfloat Hfinite Hle).
Qed.

Lemma verify_damage_nonpositive_claim_witness :
  let claim : float := S754_finite true 8796093022208000 (-43) in
  let msg := DamageRequest.mk "https://example.com/before.jpg"
                              "https://example.com/after.jpg" claim "POL-12345" in
  let response := snd (damage_verifier.verify_damage (AddressOfSeed "c") msg) in
  response = DamageResponse.mk "deduct_payout"
               (Float64.sub claim (Float64.mul claim Float64.lit_0_2))
               (Float64.mul claim Float64.lit_0_2) "POL-12345"
  /\ Float64.leb (DamageResponse.deduction response) Float64.zero = true
  /\ Float64.leb (DamageResponse.approved_amount response) Float64.zero = true.
Proof.
  cbv zeta.
  apply (proj2 (proj2 (verify_damage_nonpositive_claim (AddressOfSeed "c")
           (DamageRequest.mk "https://example.com/before.jpg"
              "https://example.com/after.jpg"
              (S754_finite true 8796093022208000 (-43)) "POL-12345")
           eq_refl eq_refl eq_refl))).
  simpl. discriminate.
Defined.

Example minus_1000_amounts :
  let claim : float := Float64.of_Z (-1000) in
  Float64.mul claim Float64.lit_0_2 = Float64.of_Z (-200)
  /\ Float64.sub claim (Float64.of_Z (-200)) = Float64.of_Z (-800).
Proof. vm_compute. auto. Qed.

(** * Further properties of the code *)

(** ** A whole workflow *)

(** X1: a workflow started with any damage request runs through: the damage
    response goes back to the client, the client's payment request goes to
    the payment processor, and the payment response, back at the client,
    has status [completed] and pays exactly the approved amount of the
    damage response; the summary the client prints shows the request's
    policy id, that amount and the transaction id, and both globals hold
    the two responses. *)
Theorem workflow_completes (environ : Python.Environ) (g : client.Globals) (r : Z)
    (client_address damage_address payment_address : Address)
    (request : DamageRequest.t) :
  let assessed := damage_verifier.verify_damage client_address request in
  let forwarded :=
    client.handle_damage_response environ g damage_address (snd assessed) in
  let paid :=
    payment_processor.process_payment r client_address (snd (snd forwarded)) in
  let finished :=
    client.handle_payment_response (fst forwarded) payment_address (snd paid) in
  fst assessed = client_address
  /\ fst (snd forwarded) = address (payment_processor.payment_agent environ)
  /\ fst paid = client_address
  /\ PaymentResponse.status (snd paid) = "completed"
  /\ PaymentResponse.paid_amount (snd paid) = DamageResponse.approved_amount (snd assessed)
  /\ PaymentResponse.decision (snd paid) = DamageResponse.decision (snd assessed)
  /\ snd finished
     = client.mkSummary (DamageRequest.policy_id request) "completed"
         (DamageResponse.approved_amount (snd assessed)) ("TXN_" ++ Python.str_int r)
  /\ fst finished = client.mkGlobals (Some (snd assessed)) (Some (snd paid)).
Proof.
  unfold damage_verifier.verify_damage.
  destruct (String.eqb (DamageRequest.before_image request)
              (DamageRequest.after_image request)); cbv zeta; cbn; repeat split.
Qed.

(** ** The client over a history of events *)

Lemma client_run_from (environ : Python.Environ)
    (history : list workflow.ClientEvent) (g : client.Globals) :
  fold_left (fun g ev => fst (workflow.client_step environ g ev)) history g
  = client.mkGlobals
      (fold_left (fun acc ev =>
                    match ev with
                    | workflow.GotDamageResponse _ msg => Some msg
                    | _ => acc
                    end) history (client.damage_response g))
      (fold_left (fun acc ev =>
                    match ev with
                    | workflow.GotPaymentResponse _ msg => Some msg
                    | _ => acc
                    end) history (client.payment_response g)).
Proof.
  revert g. induction history as [|ev rest IH]; intros g.
  - destruct g; reflexivity.
  - cbn [fold_left]. rewrite IH. destruct ev; reflexivity.
Qed.

(** X2: whatever events the client has handled, its two globals hold the
    last damage response and the last payment response it received ([None]
    while none has arrived); the ticks of the interval never reset them. *)
Theorem globals_hold_last_responses (environ : Python.Environ)
    (history : list workflow.ClientEvent) :
  workflow.client_run environ history
  = client.mkGlobals (client_history.last_damage_response history)
                     (client_history.last_payment_response history).
Proof. apply client_run_from. Qed.

(** X3: what the client sends depends on the event it handles alone, never
    on what it has seen before: every tick sends the demo request, every
    damage response, from whatever sender and whether or not a request is
    pending, is turned into one payment request to the payment processor,
    and a payment response makes it send nothing. *)
Theorem client_reacts_to_each_event_alone (environ : Python.Environ)
    (g : client.Globals) (history : list workflow.ClientEvent) :
  client_history.client_sent environ g history
  = flat_map
      (fun ev =>
         match ev with
         | workflow.Tick =>
             [workflow.SentDamageRequest
                (address (damage_verifier.damage_agent environ)) client.demo_request]
         | workflow.GotDamageResponse _ msg =>
             [workflow.SentPaymentRequest
                (address (payment_processor.payment_agent environ))
                (PaymentRequest.mk (DamageResponse.decision msg)
                                   (DamageResponse.approved_amount msg)
                                   (DamageResponse.policy_id msg))]
         | workflow.GotPaymentResponse _ _ => []
         end) history.
Proof.
  revert g. induction history as [|ev rest IH]; intros g; [reflexivity|].
  cbn [client_history.client_sent flat_map].
  destruct ev; cbn; rewrite IH; reflexivity.
Qed.

(** ** Transaction ids *)

Lemma parse_str_int_six_digits (r : Z) :
  100000 <= r <= 999999 -> numeral.parse_decimal (Python.str_int r) = Some r.
Proof.
  intros Hr. rewrite (str_int_six_digits r Hr).
  rewrite parse_six_digits by (Z.div_mod_to_equations; lia).
  f_equal. Z.div_mod_to_equations. lia.
Qed.



(** ** The supervision script, from start to shutdown *)

Lemma check_env_vars_present (environ : Python.Environ) :
  Python.truthy (Python.getenv environ "AGENT_SEED") = true ->
  run_system.check_env_vars environ
  = ([run_system.Print "✅ Environment variables are set"], true).
Proof.
  intros H. unfold run_system.check_env_vars. simpl. rewrite H. reflexivity.
Qed.

Lemma truthy_false_iff (v : option string) :
  Python.truthy v = false <-> v = None \/ v = Some "".
Proof.
  destruct v as [s|]; simpl.
  - rewrite negb_false_iff, String.eqb_eq. split.
    + intros ->. right. reflexivity.
    + intros [H|H]; [discriminate H | congruence].
  - split; [left; reflexivity | reflexivity].
Qed.

(** X5: [main] leaves through [sys.exit(1)] exactly when [AGENT_SEED] is
    unset or set to the empty string; an empty value counts as missing.  In
    every other environment it reaches its monitoring loop. *)
Theorem main_exits_iff_agent_seed_missing (environ : Python.Environ)
    (spawn : string -> Z + string) :
  (snd (run_system.main environ spawn) = run_system.SysExit 1
   <-> Python.getenv environ "AGENT_SEED" = None
       \/ Python.getenv environ "AGENT_SEED" = Some "")
  /\ (snd (run_system.main environ spawn) <> run_system.SysExit 1 ->
      exists processes, snd (run_system.main environ spawn) = run_system.Monitoring processes).
Proof.
  rewrite <- truthy_false_iff.
  destruct (Python.truthy (Python.getenv environ "AGENT_SEED")) eqn:Hseed.
  - unfold run_system.main. rewrite (check_env_vars_present environ Hseed).
    cbn [negb].
    destruct (run_system.run_agent spawn "damage_verifier.py" "DamageVerifier") as [ev1 p1].
    destruct (run_system.run_agent spawn "payment_processor.py" "PaymentProcessor")
      as [ev2 p2].
    cbn [snd]. split.
    + split; intros H; discriminate H.
    + intros _. eexists. reflexivity.
  - unfold run_system.main. rewrite (check_env_vars_missing environ Hseed).
    cbn [negb snd]. split.
    + split; reflexivity.
    + intros H. contradiction H. reflexivity.
Qed.

Lemma main_monitors_started (environ : Python.Environ)
    (spawn : string -> Z + string) :
  Python.truthy (Python.getenv environ "AGENT_SEED") = true ->
  snd (run_system.main environ spawn)
  = run_system.Monitoring
      (match spawn "damage_verifier.py" with
       | inl pid => [("DamageVerifier", pid)]
       | inr _ => []
       end
       ++ match spawn "payment_processor.py" with
          | inl pid => [("PaymentProcessor", pid)]
          | inr _ => []
          end)%list.
Proof.
  intros Hseed. unfold run_system.main.
  rewrite (check_env_vars_present environ Hseed). cbn [negb].
  unfold run_system.run_agent.
  destruct (spawn "damage_verifier.py") as [pid1|e1],
    (spawn "payment_processor.py") as [pid2|e2]; reflexivity.
Qed.

(** X6: with [AGENT_SEED] set to a non-empty value, [main] tries to launch
    both scripts, the damage verifier first, whatever happens to the first
    launch; it waits two seconds after each; it reports every launch that
    fails with the exception text; and the processes it goes on to monitor
    are exactly those that did start, in launch order. *)
Theorem main_launches_both_agents (environ : Python.Environ)
    (spawn : string -> Z + string) :
  Python.truthy (Python.getenv environ "AGENT_SEED") = true ->
  let trace := fst (run_system.main environ spawn) in
  List.filter (fun ev => match ev with
                         | run_system.Popen _ | run_system.Sleep _ => true
                         | run_system.Print _ => false
                         end) trace
  = [run_system.Popen "damage_verifier.py"; run_system.Sleep 2;
     run_system.Popen "payment_processor.py"; run_system.Sleep 2]
  /\ snd (run_system.main environ spawn)
     = run_system.Monitoring
         (match spawn "damage_verifier.py" with
          | inl pid => [("DamageVerifier", pid)]
          | inr _ => []
          end
          ++ match spawn "payment_processor.py" with
             | inl pid => [("PaymentProcessor", pid)]
             | inr _ => []
             end)%list
  /\ (forall e, spawn "damage_verifier.py" = inr e ->
      In (run_system.Print ("❌ Failed to start DamageVerifier: " ++ e)) trace)
  /\ (forall e, spawn "payment_processor.py" = inr e ->
      In (run_system.Print ("❌ Failed to start PaymentProcessor: " ++ e)) trace).
Proof.
  intros Hseed. cbv zeta. unfold run_system.main.
  rewrite (check_env_vars_present environ Hseed). cbn [negb].
  unfold run_system.run_agent.
  destruct (spawn "damage_verifier.py") as [pid1|e1],
    (spawn "payment_processor.py") as [pid2|e2];
    cbn [fst snd run_system.append_started app List.filter map];
    (split; [reflexivity|]); (split; [reflexivity|]);
    split; intros e He; try discriminate He; injection He as <-;
    cbn; tauto.
Qed.

Lemma main_launches_both_agents_witness :
  let environ : Python.Environ := {[ "AGENT_SEED" := "seed" ]} in
  let spawn (script : string) : Z + string :=
    if String.eqb script "damage_verifier.py"
    then inr "No such file or directory" else inl 4242 in
  snd (run_system.main environ spawn)
  = run_system.Monitoring [("PaymentProcessor", 4242)]
  /\ In (run_system.Print "❌ Failed to start DamageVerifier: No such file or directory")
        (fst (run_system.main environ spawn)).
Proof.
  cbv zeta.
  pose proof (main_launches_both_agents {[ "AGENT_SEED" := "seed" ]}
                (fun script : string =>
                   if String.eqb script "damage_verifier.py"
                   then inr "No such file or directory" else inl 4242)
                eq_refl) as (_ & Hout & Hfail & _).
  split; [exact Hout | exact (Hfail _ eq_refl)].
Defined.

Lemma terminated_app (t1 t2 : list supervision.Event) :
  supervision.terminated (t1 ++ t2)
  = (supervision.terminated t1 ++ supervision.terminated t2)%list.
Proof. apply flat_map_app. Qed.

Lemma killed_app (t1 t2 : list supervision.Event) :
  supervision.killed (t1 ++ t2)
  = (supervision.killed t1 ++ supervision.killed t2)%list.
Proof. apply flat_map_app. Qed.

Lemma shutdown_terminated (exits_in_time : Z -> bool)
    (processes : list (string * Z)) :
  supervision.terminated (supervision.shutdown exits_in_time processes)
  = map snd processes.
Proof.
  unfold supervision.shutdown.
  cbn [supervision.terminated flat_map app].
  fold (supervision.terminated). rewrite terminated_app.
  cbn [supervision.terminated flat_map app]. rewrite app_nil_r.
  induction processes as [|[name pid] rest IH]; [reflexivity|].
  cbn [flat_map map snd]. rewrite terminated_app, IH.
  destruct (exits_in_time pid); reflexivity.
Qed.

Lemma shutdown_killed (exits_in_time : Z -> bool)
    (processes : list (string * Z)) :
  supervision.killed (supervision.shutdown exits_in_time processes)
  = List.filter (fun pid => negb (exits_in_time pid)) (map snd processes).
Proof.
  unfold supervision.shutdown.
  cbn [supervision.killed flat_map app].
  fold (supervision.killed). rewrite killed_app.
  cbn [supervision.killed flat_map app]. rewrite app_nil_r.
  induction processes as [|[name pid] rest IH]; [reflexivity|].
  cbn [flat_map map snd List.filter]. rewrite killed_app, IH.
  destruct (exits_in_time pid); reflexivity.
Qed.

(** X7: on shutdown every monitored process is sent [terminate] exactly
    once, in the order the processes were started, and [kill] goes to
    exactly those that did not exit within the five seconds of the wait; a
    process that exits in time is never killed. *)
Theorem shutdown_terminates_all_kills_late (exits_in_time : Z -> bool)
    (processes : list (string * Z)) :
  supervision.terminated (supervision.shutdown exits_in_time processes)
  = map snd processes
  /\ supervision.killed (supervision.shutdown exits_in_time processes)
     = List.filter (fun pid => negb (exits_in_time pid)) (map snd processes).
Proof.
  split; [apply shutdown_terminated | apply shutdown_killed].
Qed.

(** X8: one turn of the monitoring loop prints a warning for exactly the
    monitored processes whose [poll] shows that they have stopped, in start
    order, and nothing else; it terminates and kills no process. *)
Theorem monitor_iteration_reports_stopped (poll : Z -> option Z)
    (processes : list (string * Z)) :
  supervision.printed (supervision.monitor_iteration poll processes)
  = map (fun '(name, _) => "⚠️  " ++ name ++ " has stopped unexpectedly")
        (List.filter (fun '(_, pid) => match poll pid with Some _ => true | None => false end)
                     processes)
  /\ supervision.terminated (supervision.monitor_iteration poll processes) = []
  /\ supervision.killed (supervision.monitor_iteration poll processes) = [].
Proof.
  unfold supervision.monitor_iteration.
  cbn [supervision.printed supervision.terminated supervision.killed flat_map app].
  induction processes as [|[name pid] rest (IHp & IHt & IHk)]; [repeat split|].
  cbn [flat_map List.filter].
  fold (supervision.printed) (supervision.terminated) (supervision.killed) in *.
  destruct (poll pid) as [code|]; cbn [app flat_map map];
    unfold supervision.printed, supervision.terminated, supervision.killed in *;
    rewrite ?flat_map_app; cbn [flat_map app];
    rewrite IHp, IHt, IHk; repeat split.
Qed.

(** X9: interrupting [main] once it monitors sends [terminate] to every
    process [main] managed to start and to no other: the pids terminated
    are those [subprocess.Popen] returned, the damage verifier's first. *)
Theorem main_then_shutdown (environ : Python.Environ) (spawn : string -> Z + string)
    (exits_in_time : Z -> bool) (processes : list (string * Z)) :
  snd (run_system.main environ spawn) = run_system.Monitoring processes ->
  supervision.terminated (supervision.shutdown exits_in_time processes)
  = flat_map (fun script => match spawn script with inl pid => [pid] | inr _ => [] end)
             ["damage_verifier.py"; "payment_processor.py"].
Proof.
  intros Hmon.
  destruct (Python.truthy (Python.getenv environ "AGENT_SEED")) eqn:Hseed.
  - rewrite (main_monitors_started environ spawn Hseed) in Hmon.
    injection Hmon as <-. rewrite shutdown_terminated.
    cbn [flat_map].
    destruct (spawn "damage_verifier.py"), (spawn "payment_processor.py"); reflexivity.
  - unfold run_system.main in Hmon.
    rewrite (check_env_vars_missing environ Hseed) in Hmon. discriminate Hmon.
Qed.

Lemma main_then_shutdown_witness :
  let environ : Python.Environ := {[ "AGENT_SEED" := "seed" ]} in
  let spawn (script : string) : Z + string :=
    if String.eqb script "damage_verifier.py" then inl 101 else inl 102 in
  supervision.terminated
    (supervision.shutdown (fun _ => true)
       [("DamageVerifier", 101); ("PaymentProcessor", 102)])
  = [101; 102].
Proof.
  cbv zeta.
  apply (main_then_shutdown {[ "AGENT_SEED" := "seed" ]}
           (fun script : string =>
              if String.eqb script "damage_verifier.py" then inl 101 else inl 102)
           (fun _ => true)
           [("DamageVerifier", 101); ("PaymentProcessor", 102)]).
  vm_compute. reflexivity.
Defined.

(** ** The test script *)

(** X10: the environment test of [test_system.py] passes exactly in the
    environments where [run_system.py] gets past its check and starts the
    agents. *)
Theorem test_environment_agrees_with_main (environ : Python.Environ)
    (spawn : string -> Z + string) :
  snd (test_system.test_environment environ) = true
  <-> snd (run_system.main environ spawn) <> run_system.SysExit 1.
Proof.
  unfold test_system.test_environment.
  destruct (Python.truthy (Python.getenv environ "AGENT_SEED")) eqn:Hseed; cbn [snd].
  - rewrite (main_monitors_started environ spawn Hseed).
    split; [intros _ H; discriminate H | reflexivity].
  - unfold run_system.main. rewrite (check_env_vars_missing environ Hseed).
    cbn [negb snd]. split; [intros H; discriminate H | intros H; contradiction H; reflexivity].
Qed.

(** X11: [test_imports] imports the four modules in order and stops at the
    first import that raises: the modules after it are not imported, and
    the test passes exactly when all four imports succeed. *)
Theorem test_imports_stops_at_first_failure (importer : string -> option string) :
  let modules := ["damage_verifier"; "payment_processor"; "client"; "run_system"] in
  test_system.imported (fst (test_system.test_imports importer))
  = test_system.up_to_first_failure importer modules
  /\ snd (test_system.test_imports importer)
     = forallb (test_system.succeeds importer) modules.
Proof.
  cbv zeta. unfold test_system.test_imports, test_system.succeeds.
  cbn [test_system.up_to_first_failure forallb test_system.succeeds].
  unfold test_system.succeeds.
  destruct (importer "damage_verifier"); [split; reflexivity|].
  destruct (importer "payment_processor"); [split; reflexivity|].
  destruct (importer "client"); [split; reflexivity|].
  destruct (importer "run_system"); split; reflexivity.
Qed.

Lemma run_test_result (test_name : string) (result : list test_system.Event * bool)
    (passed : Z) :
  snd (test_system.run_test test_name result passed)
  = passed + (if snd result then 1 else 0)
  /\ test_system.imported (fst (test_system.run_test test_name result passed))
     = test_system.imported (fst result).
Proof.
  destruct result as [ev [|]]; cbn [test_system.run_test fst snd].
  - split; reflexivity.
  - split; [lia|].
    cbn [test_system.imported flat_map app].
    fold test_system.imported. unfold test_system.imported.
    rewrite flat_map_app. cbn [flat_map app]. apply app_nil_r.
Qed.

Lemma imported_app (t1 t2 : list test_system.Event) :
  test_system.imported (t1 ++ t2)
  = (test_system.imported t1 ++ test_system.imported t2)%list.
Proof. apply flat_map_app. Qed.

(** X12: [main] of the test script runs all three tests whatever the
    earlier ones returned, so the imports of the agent-creation test are
    attempted even after the import test has failed; it returns [True]
    exactly when the three tests pass. *)
Theorem test_main_runs_all_tests (environ : Python.Environ)
    (importer importer_again : string -> option string) :
  let suite := test_system.main environ importer importer_again in
  snd suite
  = snd (test_system.test_imports importer)
    && snd (test_system.test_environment environ)
    && snd (test_system.test_agent_creation environ importer_again)
  /\ test_system.imported (fst suite)
     = (test_system.imported (fst (test_system.test_imports importer))
        ++ test_system.imported
             (fst (test_system.test_agent_creation environ importer_again)))%list.
Proof.
  cbv zeta. unfold test_system.main.
  pose proof (run_test_result "Import Tests" (test_system.test_imports importer) 0)
    as [Hp1 Hi1].
  destruct (test_system.run_test "Import Tests" (test_system.test_imports importer) 0)
    as [ev1 p1]. cbn [fst snd] in Hp1, Hi1.
  pose proof (run_test_result "Environment Tests"
                (test_system.test_environment environ) p1) as [Hp2 Hi2].
  destruct (test_system.run_test "Environment Tests"
              (test_system.test_environment environ) p1) as [ev2 p2].
  cbn [fst snd] in Hp2, Hi2.
  pose proof (run_test_result "Agent Creation Tests"
                (test_system.test_agent_creation environ importer_again) p2) as [Hp3 Hi3].
  destruct (test_system.run_test "Agent Creation Tests"
              (test_system.test_agent_creation environ importer_again) p2) as [ev3 p3].
  cbn [fst snd] in Hp3, Hi3. cbn [fst snd]. split.
  - subst p3 p2 p1.
    destruct (snd (test_system.test_imports importer)),
      (snd (test_system.test_environment environ)),
      (snd (test_system.test_agent_creation environ importer_again)); reflexivity.
  - rewrite !imported_app, Hi1, Hi2, Hi3.
    assert (test_system.imported (fst (test_system.test_environment environ)) = [])
      as -> by (unfold test_system.test_environment;
                destruct (Python.truthy _); reflexivity).
    cbn [test_system.imported flat_map app].
    destruct (Z.eqb p3 3); cbn [flat_map app]; rewrite ?app_nil_r; reflexivity.
Qed.

(** X13: when a module that was imported once is imported again without
    error, the test suite passes exactly when the four modules import and
    [AGENT_SEED] is set to a non-empty value. *)
Theorem test_main_passes_iff (environ : Python.Environ)
    (importer importer_again : string -> option string) :
  (forall module_name, importer module_name = None -> importer_again module_name = None) ->
  snd (test_system.main environ importer importer_again) = true
  <-> (forall module_name,
         In module_name ["damage_verifier"; "payment_processor"; "client"; "run_system"] ->
         importer module_name = None)
      /\ Python.truthy (Python.getenv environ "AGENT_SEED") = true.
Proof.
  intros Hcache.
  assert (snd (test_system.main environ importer importer_again)
          = snd (test_system.test_imports importer)
            && snd (test_system.test_environment environ)
            && snd (test_system.test_agent_creation environ importer_again)) as ->.
  { unfold test_system.main.
    pose proof (run_test_result "Import Tests" (test_system.test_imports importer) 0)
      as [Hp1 _].
    destruct (test_system.run_test "Import Tests" (test_system.test_imports importer) 0)
      as [ev1 p1]. cbn [snd] in Hp1.
    pose proof (run_test_result "Environment Tests"
                  (test_system.test_environment environ) p1) as [Hp2 _].
    destruct (test_system.run_test "Environment Tests"
                (test_system.test_environment environ) p1) as [ev2 p2].
    cbn [snd] in Hp2.
    pose proof (run_test_result "Agent Creation Tests"
                  (test_system.test_agent_creation environ importer_again) p2) as [Hp3 _].
    destruct (test_system.run_test "Agent Creation Tests"
                (test_system.test_agent_creation environ importer_again) p2) as [ev3 p3].
    cbn [snd] in Hp3. cbn [snd]. subst p3 p2 p1.
    destruct (snd (test_system.test_imports importer)),
      (snd (test_system.test_environment environ)),
      (snd (test_system.test_agent_creation environ importer_again)); reflexivity. }
  unfold test_system.test_imports, test_system.test_agent_creation,
    test_system.test_environment.
  destruct (Python.truthy (Python.getenv environ "AGENT_SEED")) eqn:Hseed.
  - destruct (importer "damage_verifier") eqn:H1.
    { cbn. split; [discriminate|]. intros [Hall _].
      specialize (Hall "damage_verifier"). cbn in Hall. rewrite Hall in H1 by tauto.
      discriminate H1. }
    destruct (importer "payment_processor") eqn:H2.
    { cbn. split; [discriminate|]. intros [Hall _].
      specialize (Hall "payment_processor"). cbn in Hall. rewrite Hall in H2 by tauto.
      discriminate H2. }
    destruct (importer "client") eqn:H3.
    { cbn. split; [discriminate|]. intros [Hall _].
      specialize (Hall "client"). cbn in Hall. rewrite Hall in H3 by tauto.
      discriminate H3. }
    destruct (importer "run_system") eqn:H4.
    { cbn. split; [discriminate|]. intros [Hall _].
      specialize (Hall "run_system"). cbn in Hall. rewrite Hall in H4 by tauto.
      discriminate H4. }
    rewrite (Hcache _ H1), (Hcache _ H2), (Hcache _ H3). cbn [snd andb].
    split; [|reflexivity]. intros _. split; [|reflexivity].
    intros m [<-|[<-|[<-|[<-|[]]]]]; assumption.
  - split.
    + intros H. rewrite andb_true_iff in H. destruct H as [H _].
      rewrite andb_true_iff in H. destruct H as [_ H]. discriminate H.
    + intros [_ H]. discriminate H.
Qed.

Lemma test_main_passes_iff_witness :
  let environ : Python.Environ := {[ "AGENT_SEED" := "seed" ]} in
  snd (test_system.main environ (fun _ => None) (fun _ => None)) = true
  <-> (forall module_name,
         In module_name ["damage_verifier"; "payment_processor"; "client"; "run_system"] ->
         (fun _ : string => @None string) module_name = None)
      /\ Python.truthy (Python.getenv environ "AGENT_SEED") = true.
Proof.
  cbv zeta.
  apply (test_main_passes_iff {[ "AGENT_SEED" := "seed" ]} (fun _ => None) (fun _ => None)).
  intros module_name _. reflexivity.
Defined.

(** ** Amounts for claims that are not negative *)

Lemma mul_0_2_exponent (sx : bool) (mx m3 : positive) (ex e3 : Z) :
  bounded Float64.prec Float64.emax mx ex = true ->
  Float64.mul (S754_finite sx mx ex) Float64.lit_0_2 = S754_finite sx m3 e3 ->
  rounding.V (Zpos m3) e3 <= rounding.V (Zpos mx) ex ->
  e3 <= ex.
Proof.
  intros Hb Hd Hval. destruct (bounded_facts mx ex Hb) as (Hex & Hmx).
  unfold Float64.mul, Float64.lit_0_2, SFmul in Hd. rewrite xorb_false_r in Hd.
  set (M := Zpos (mx * 7205759403792794)%positive) in *. set (e := ex + -55) in *.
  assert (M = Zpos mx * 7205759403792794) as HM by (unfold M; lia).
  assert (Zdigits2 M <= 106) as HdM.
  { apply Zdigits2_le; [lia | lia |].
    rewrite HM. change (2 ^ 106) with (2 ^ 53 * 2 ^ 53).
    change (2 ^ 53) with 9007199254740992 in *. nia. }
  pose proof (binary_round_aux_spec sx M e) as Hspec.
  set (e1 := Z.max e (fexp Float64.prec Float64.emax (Zdigits2 M + e))) in *.
  assert (e1 <= Z.max (ex - 2) (-1074)) as He1 by (unfold e1, e; rewrite fexp_eq; lia).
  destruct Hspec as (m3' & e3' & Hm3 & He3 & _ & Hpack); [lia|].
  rewrite Hpack in Hd. unfold rounding.pack in Hd.
  destruct m3' as [|p|p]; try discriminate Hd.
  destruct (Z.leb e3' (Float64.emax - Float64.prec)); try discriminate Hd.
  injection Hd as -> ->.
  destruct He3 as [->|[-> Hcarry]]; [lia|].
  destruct (Z.le_gt_cases (e1 + 1) ex) as [Hle|Hgt]; [exact Hle|].
  exfalso. assert (e1 = -1074 /\ ex = -1074) as [He1' Hex'] by lia.
  unfold rounding.V in Hval. rewrite Hcarry, He1', Hex' in Hval.
  change (2 ^ 53) with 9007199254740992 in Hmx.
  change (2 ^ 52 * 2 ^ (-1074 + 1 + 1074)) with 9007199254740992 in Hval.
  change (2 ^ (-1074 + 1074)) with 1 in Hval. lia.
Qed.

Lemma finite_leb (m m' : positive) (e e' : Z) :
  e < e' \/ (e = e' /\ Zpos m <= Zpos m') ->
  Float64.leb (S754_finite false m e) (S754_finite false m' e') = true.
Proof.
  intros H. unfold Float64.leb, SFleb, SFcompare.
  destruct (Z.compare_spec e e') as [Heq|Hlt|Hgt]; [|reflexivity|lia].
  change (Pos.compare_cont Eq m m') with (Pos.compare m m').
  destruct (Pos.compare_spec m m') as [Hm|Hm|Hm]; try reflexivity. lia.
Qed.

(** Taking away from a positive float a positive float that is not
    larger gives a float between zero and the first. *)
Lemma sub_positives_bounds (mx md : positive) (ex ed : Z) :
  bounded Float64.prec Float64.emax mx ex = true ->
  -1074 <= ed ->
  rounding.V (Zpos md) ed <= rounding.V (Zpos mx) ex ->
  let c := S754_finite false mx ex in
  let a := Float64.sub c (S754_finite false md ed) in
  Float64.leb Float64.zero a = true /\ Float64.leb a c = true.
Proof.
  intros Hb Hed Hle. cbv zeta.
  destruct (bounded_facts mx ex Hb) as (Hex & Hmx).
  set (P := 2 ^ (ex + 1074)).
  assert (0 < P) as HP by (apply Z.pow_pos_nonneg; lia).
  set (C := rounding.V (Zpos mx) ex) in *.
  set (D := rounding.V (Zpos md) ed) in *.
  assert (C = Zpos mx * P) as HC by reflexivity.
  assert (0 < D) as HD.
  { unfold D, rounding.V. apply Z.mul_pos_pos; [lia|]. apply Z.pow_pos_nonneg; lia. }
  assert (2 ^ (53 + ex + 1074) = 2 ^ 53 * P) as H53.
  { unfold P. rewrite <- Z.pow_add_r by lia. f_equal. lia. }
  rewrite sub_same_sign.
  set (ez := Z.min ex ed).
  assert (-1074 <= ez) as Hez by (unfold ez; lia).
  set (N := Zpos mx * 2 ^ (ex - ez) - Zpos md * 2 ^ (ed - ez)).
  assert (rounding.V N ez = C - D) as HN.
  { unfold N, C, D. rewrite <- (V_rescale (Zpos mx) ex ez) by (unfold ez; lia).
    rewrite <- (V_rescale (Zpos md) ed ez) by (unfold ez; lia).
    unfold rounding.V. ring. }
  assert (0 <= N) as HN0.
  { assert (0 < 2 ^ (ez + 1074)) by (apply Z.pow_pos_nonneg; lia).
    unfold rounding.V in HN. nia. }
  cbn [cond_Zopp].
  destruct N as [|n|n] eqn:HNeq; [split; reflexivity| |lia].
  cbn [binary_normalize].
  destruct (binary_round_near false n ez ex Hez ltac:(lia))
    as (ma & ea & Hma & Hea & Hcarry & Herr & ->).
  { rewrite HN, H53. change (2 ^ 53) with 9007199254740992 in *. nia. }
  rewrite HN in Herr. fold P in Herr.
  assert (ea <= ex) as Hea'.
  { destruct Hcarry as [Hle'|[-> ->]]; [exact Hle'|].
    exfalso. unfold rounding.V in Herr.
    replace (ex + 1 + 1074) with (1 + (ex + 1074)) in Herr by lia.
    rewrite Z.pow_add_r in Herr by lia. fold P in Herr.
    replace (2 ^ 52 * (2 ^ 1 * P)) with (9007199254740992 * P) in Herr
      by (change (2 ^ 52) with 4503599627370496; change (2 ^ 1) with 2; ring).
    change (2 ^ 53) with 9007199254740992 in *. nia. }
  unfold rounding.pack.
  destruct ma as [|ma|ma]; [split; reflexivity| |lia].
  replace (Z.leb ea (Float64.emax - Float64.prec)) with true
    by (symmetry; apply Z.leb_le; unfold Float64.emax, Float64.prec; lia).
  split; [reflexivity|].
  apply finite_leb.
  destruct (Z.eq_dec ea ex) as [->|Hneq]; [right | left; lia].
  split; [reflexivity|].
  unfold rounding.V in Herr. fold P in Herr. nia.
Qed.

(** X14: for a finite claim amount that is not negative and differing
    images, the deduction and the approved amount both lie between zero and
    the claim amount: the payout is never negative and never exceeds the
    claim. *)
Theorem verify_damage_nonnegative_claim (sender : Address) (msg : DamageRequest.t) :
  Float64.is_float (DamageRequest.claim_amount msg) = true ->
  Float64.is_finite (DamageRequest.claim_amount msg) = true ->
  Float64.leb Float64.zero (DamageRequest.claim_amount msg) = true ->
  DamageRequest.before_image msg <> DamageRequest.after_image msg ->
  let claim := DamageRequest.claim_amount msg in
  let response := snd (damage_verifier.verify_damage sender msg) in
  Float64.leb Float64.zero (DamageResponse.deduction response) = true
  /\ Float64.leb (DamageResponse.deduction response) claim = true
  /\ Float64.leb Float64.zero (DamageResponse.approved_amount response) = true
  /\ Float64.leb (DamageResponse.approved_amount response) claim = true.
Proof.
  intros Hfloat Hfinite Hle Hneq. cbv zeta.
  unfold damage_verifier.verify_damage.
  apply String.eqb_neq in Hneq. rewrite Hneq.
  cbn [snd DamageResponse.deduction DamageResponse.approved_amount].
  destruct (DamageRequest.claim_amount msg) as [s|s| |s mx ex];
    try discriminate Hfinite.
  - destruct s; repeat split.
  - destruct s; [discriminate Hle|].
    unfold Float64.is_float in Hfloat. cbn [valid_binary] in Hfloat.
    destruct (bounded_facts mx ex Hfloat) as (Hex & Hmx).
    destruct (mul_0_2_magnitude false mx ex Hfloat) as [Hd|(m3 & e3 & Hd & He3 & Hval)].
    + rewrite Hd. repeat split.
      apply finite_leb. right. split; [reflexivity | lia].
    + pose proof (mul_0_2_exponent false mx m3 ex e3 Hfloat Hd Hval) as He3'.
      rewrite Hd.
      destruct (sub_positives_bounds mx m3 ex e3 Hfloat He3 Hval) as [Ha0 Hac].
      split; [reflexivity|]. split; [|split; assumption].
      apply finite_leb.
      destruct (Z.eq_dec e3 ex) as [->|Hneq']; [right | left; lia].
      split; [reflexivity|].
      unfold rounding.V in Hval.
      assert (0 < 2 ^ (ex + 1074)) by (apply Z.pow_pos_nonneg; lia). nia.
Qed.

Lemma verify_damage_nonnegative_claim_witness :
  let response :=
    snd (damage_verifier.verify_damage (AddressOfSeed "c") client.demo_request) in
  Float64.leb Float64.zero (DamageResponse.deduction response) = true
  /\ Float64.leb (DamageResponse.deduction response) Float64.lit_1000 = true
  /\ Float64.leb Float64.zero (DamageResponse.approved_amount response) = true
  /\ Float64.leb (DamageResponse.approved_amount response) Float64.lit_1000 = true.
Proof.
  apply (verify_damage_nonnegative_claim (AddressOfSeed "c") client.demo_request);
    try reflexivity.
  simpl. discriminate.
Defined.

(** X15: nothing validates the claim amount: when it is NaN or an infinity
    and the images differ, the approved amount is NaN, and the payment
    processor still answers [completed], with NaN as the amount paid. *)
Theorem nonfinite_claim_pays_nan (r : Z) (sender payer : Address)
    (msg : DamageRequest.t) :
  Float64.is_finite (DamageRequest.claim_amount msg) = false ->
  DamageRequest.before_image msg <> DamageRequest.after_image msg ->
  let response := snd (damage_verifier.verify_damage sender msg) in
  let payment :=
    snd (payment_processor.process_payment r payer
           (PaymentRequest.mk (DamageResponse.decision response)
                              (DamageResponse.approved_amount response)
                              (DamageResponse.policy_id response))) in
  DamageResponse.approved_amount response = S754_nan
  /\ PaymentResponse.status payment = "completed"
  /\ PaymentResponse.paid_amount payment = S754_nan.
Proof.
  intros Hnonfinite Hneq. cbv zeta.
  unfold damage_verifier.verify_damage.
  apply String.eqb_neq in Hneq. rewrite Hneq.
  destruct (DamageRequest.claim_amount msg) as [s|s| |s mx ex];
    try discriminate Hnonfinite.
  - destruct s; repeat split.
  - repeat split.
Qed.

Lemma nonfinite_claim_pays_nan_witness :
  let msg := DamageRequest.mk "before.jpg" "after.jpg" (S754_infinity false) "POL-1" in
  let response := snd (damage_verifier.verify_damage (AddressOfSeed "c") msg) in
  let payment :=
    snd (payment_processor.process_payment 123456 (AddressOfSeed "c")
           (PaymentRequest.mk (DamageResponse.decision response)
                              (DamageResponse.approved_amount response)
                              (DamageResponse.policy_id response))) in
  DamageResponse.approved_amount response = S754_nan
  /\ PaymentResponse.status payment = "completed"
  /\ PaymentResponse.paid_amount payment = S754_nan.
Proof.
  apply (nonfinite_claim_pays_nan 123456 (AddressOfSeed "c") (AddressOfSeed "c")
           (DamageRequest.mk "before.jpg" "after.jpg" (S754_infinity false) "POL-1")).
  - reflexivity.
  - simpl. discriminate.
Defined.
